(** * EazyML quick-start script: upload a document, extract information

    A shallow embedding of [eazyml_upload_extract_information.py]:
    the three step functions [eazyml_auth], [eazyml_upload] and
    [eazyml_extract_information], and the orchestration [flow], over an
    explicit world (files, standard output, remote calls made).

    The remote client library [eazyml] is an oracle, a parameter of every
    run.  Python's [json] module is modelled by a printer and a parser for
    the values the script handles. *)

From Stdlib Require Import ZArith Ascii String Decimal DecimalPos.
From stdpp Require Import base option list strings gmap.

Local Open Scope string_scope.
Local Open Scope list_scope.

(** ** Python values

    The values that travel through the script are JSON values: responses of
    the remote service, the content of the cache files, command-line strings
    and [None].  Numbers are the integers; a dict keeps its insertion order
    and has string keys.  A character of a string is one of the first 256
    code points. *)

Unset Elimination Schemes.
Inductive pyval : Type :=
| VNone
| VBool (b : bool)
| VInt (z : Z)
| VStr (s : string)
| VList (l : list pyval)
| VDict (d : list (string * pyval)).
Set Elimination Schemes.

(** Exceptions the script can raise. *)
Inductive exn : Type :=
| KeyError (key : string)
| NameError (name : string)
| UnboundLocalError (name : string)
| TypeError
| JSONDecodeError
| FileNotFoundError.

(** [bool(v)]: the truth value Python gives [v] in [if v] and [not v]. *)
Definition truthy (v : pyval) : bool :=
  match v with
  | VNone => false
  | VBool b => b
  | VInt z => negb (z =? 0)%Z
  | VStr s => negb (s =? "")%string
  | VList l => match l with [] => false | _ => true end
  | VDict d => match d with [] => false | _ => true end
  end.

(** [v is True]: identity with the singleton [True]. *)
Definition is_True (v : pyval) : bool :=
  match v with VBool true => true | _ => false end.

(** [v is not None]. *)
Definition is_not_None (v : pyval) : bool :=
  match v with VNone => false | _ => true end.

(** [v == s] for a string literal [s]: a string equals only a string. *)
Definition eq_str (v : pyval) (s : string) : bool :=
  match v with VStr s' => (s' =? s)%string | _ => false end.

Definition isSome {A} (o : option A) : bool :=
  match o with
  | Some _ => true
  | None => false
  end.

(** Lookup of a key in a dict. *)
Fixpoint dict_get (k : string) (d : list (string * pyval)) : option pyval :=
  match d with
  | [] => None
  | (k', v) :: d' => if (k' =? k)%string then Some v else dict_get k d'
  end.

(** [d[k] = v] on a dict: an existing key keeps its place. *)
Fixpoint dict_set (k : string) (v : pyval) (d : list (string * pyval))
  : list (string * pyval) :=
  match d with
  | [] => [(k, v)]
  | (k', v') :: d' =>
      if (k' =? k)%string then (k, v) :: d' else (k', v') :: dict_set k v d'
  end.

(** [dict(pairs)]. *)
Definition dict_of_pairs (pairs : list (string * pyval)) : list (string * pyval) :=
  fold_left (fun d kv => dict_set kv.1 kv.2 d) pairs [].

(** [v[k]] for a string literal [k]: only a dict can be indexed by a string. *)
Definition getitem (v : pyval) (k : string) : exn + pyval :=
  match v with
  | VDict d => match dict_get k d with
               | Some x => inr x
               | None => inl (KeyError k)
               end
  | _ => inl TypeError
  end.

(** [sub in s] on strings. *)
Fixpoint substring_of (sub s : string) : bool :=
  String.prefix sub s ||
  match s with
  | EmptyString => false
  | String _ s' => substring_of sub s'
  end.

(** [k in v] for a string literal [k]: a key of a dict, an element of a list,
    a substring of a string; the other values are not containers. *)
Definition contains (k : string) (v : pyval) : exn + bool :=
  match v with
  | VDict d => inr (isSome (dict_get k d))
  | VList l => inr (existsb (fun x => eq_str x k) l)
  | VStr s => inr (substring_of k s)
  | _ => inl TypeError
  end.

(** The keys of every dict are pairwise distinct, as they are in Python. *)
Fixpoint nodup_keys (ks : list string) : bool :=
  match ks with
  | [] => true
  | k :: ks' => negb (existsb (String.eqb k) ks') && nodup_keys ks'
  end.

Fixpoint well_formed (v : pyval) : bool :=
  match v with
  | VList l => forallb well_formed l
  | VDict d => nodup_keys (map fst d) && forallb (fun kv => well_formed kv.2) d
  | _ => true
  end.

(** ** The [json] module

    [json.dumps(obj, indent=4)] and [json.load] on the values above, after
    the encoder and the decoder of the Python library ([json.encoder],
    [json.decoder], [json.scanner]).  Text is a list of characters here and
    a [string] in a file.  Every value above can be encoded.  The limits of
    an interpreter (recursion depth, digits of an integer conversion) are
    not part of the model. *)

Module Json.

Definition chars (s : string) : list ascii := list_ascii_of_string s.

Definition quote : ascii := "034".
Definition backslash : ascii := "092".

Definition hex_digit (n : N) : ascii :=
  if (n <? 10)%N then ascii_of_N (48 + n) else ascii_of_N (87 + n).

(** [ESCAPE_ASCII]: the two-character escapes, a character from space to
    tilde as it is, anything else as a [\uXXXX] escape in lower case. *)
Definition escape_char (c : ascii) : list ascii :=
  let n := N_of_ascii c in
  if (n =? 34)%N then [backslash; quote]
  else if (n =? 92)%N then [backslash; backslash]
  else if (n =? 10)%N then [backslash; "n"%char]
  else if (n =? 13)%N then [backslash; "r"%char]
  else if (n =? 9)%N then [backslash; "t"%char]
  else if (n =? 8)%N then [backslash; "b"%char]
  else if (n =? 12)%N then [backslash; "f"%char]
  else if (32 <=? n)%N && (n <=? 126)%N then [c]
  else [backslash; "u"%char; "0"%char; "0"%char;
        hex_digit (n / 16); hex_digit (n mod 16)].

Definition encode_string (s : string) : list ascii :=
  quote :: concat (map escape_char (chars s)) ++ [quote].

Fixpoint uint_chars (d : Decimal.uint) : list ascii :=
  match d with
  | Nil => []
  | D0 d => "0"%char :: uint_chars d
  | D1 d => "1"%char :: uint_chars d
  | D2 d => "2"%char :: uint_chars d
  | D3 d => "3"%char :: uint_chars d
  | D4 d => "4"%char :: uint_chars d
  | D5 d => "5"%char :: uint_chars d
  | D6 d => "6"%char :: uint_chars d
  | D7 d => "7"%char :: uint_chars d
  | D8 d => "8"%char :: uint_chars d
  | D9 d => "9"%char :: uint_chars d
  end.

(** [int.__repr__]. *)
Definition encode_int (z : Z) : list ascii :=
  match z with
  | Z0 => ["0"%char]
  | Zpos p => uint_chars (Pos.to_uint p)
  | Zneg p => "-"%char :: uint_chars (Pos.to_uint p)
  end.

(** A line break followed by [indent * level] spaces, [indent] being 4. *)
Definition newline_indent (level : nat) : list ascii :=
  "010"%char :: repeat " "%char (4 * level).

(** [sep.join(parts)]. *)
Fixpoint join (sep : list ascii) (parts : list (list ascii)) : list ascii :=
  match parts with
  | [] => []
  | [p] => p
  | p :: ps => p ++ sep ++ join sep ps
  end.

(** The item separator with [indent=4]: a comma and a new line. *)
Definition separator (level : nat) : list ascii := ","%char :: newline_indent level.

(** [_iterencode] with [indent=4]: item separator [","], key separator
    [": "], an empty container on one line. *)
Fixpoint encode (level : nat) (v : pyval) : list ascii :=
  match v with
  | VNone => chars "null"
  | VBool true => chars "true"
  | VBool false => chars "false"
  | VInt z => encode_int z
  | VStr s => encode_string s
  | VList [] => chars "[]"
  | VList l =>
      "["%char :: newline_indent (S level) ++
      join (separator (S level)) (map (encode (S level)) l) ++
      newline_indent level ++ ["]"%char]
  | VDict [] => chars "{}"
  | VDict d =>
      "{"%char :: newline_indent (S level) ++
      join (separator (S level))
        (map (fun kv => encode_string kv.1 ++ chars ": " ++ encode (S level) kv.2) d) ++
      newline_indent level ++ ["}"%char]
  end.

(** One entry of a dict, as [encode] writes it. *)
Definition encode_entry (level : nat) (kv : string * pyval) : list ascii :=
  encode_string kv.1 ++ chars ": " ++ encode level kv.2.

Definition dumps (v : pyval) : string := string_of_list_ascii (encode 0 v).

(** The decoder.  A result is the value read and the text that follows it;
    [None] is a document the decoder rejects ([JSONDecodeError]) or one with
    a number that is not an integer or an escape above code point 255, which
    the values above do not cover. *)

Definition is_ws (c : ascii) : bool :=
  let n := N_of_ascii c in
  (n =? 32)%N || (n =? 9)%N || (n =? 10)%N || (n =? 13)%N.

Fixpoint skip_ws (s : list ascii) : list ascii :=
  match s with
  | c :: r => if is_ws c then skip_ws r else s
  | [] => []
  end.

Definition hex_value (c : ascii) : option N :=
  let n := N_of_ascii c in
  if (48 <=? n)%N && (n <=? 57)%N then Some (n - 48)%N
  else if (97 <=? n)%N && (n <=? 102)%N then Some (n - 87)%N
  else if (65 <=? n)%N && (n <=? 70)%N then Some (n - 55)%N
  else None.

(** The character a backslash escape stands for ([BACKSLASH]). *)
Definition unescape (c : ascii) : option ascii :=
  let n := N_of_ascii c in
  if (n =? 34)%N then Some quote
  else if (n =? 92)%N then Some backslash
  else if (n =? 47)%N then Some "/"%char
  else if (n =? 98)%N then Some "008"%char
  else if (n =? 102)%N then Some "012"%char
  else if (n =? 110)%N then Some "010"%char
  else if (n =? 114)%N then Some "013"%char
  else if (n =? 116)%N then Some "009"%char
  else None.

Definition cons_fst {A B} (a : A) (r : option (list A * B)) : option (list A * B) :=
  match r with
  | Some (l, b) => Some (a :: l, b)
  | None => None
  end.

(** [scanstring], strict: the text after an opening quote, up to the closing
    one. *)
Fixpoint scanstring (s : list ascii) : option (list ascii * list ascii) :=
  match s with
  | [] => None
  | c :: r =>
      if Ascii.eqb c quote then Some ([], r)
      else if Ascii.eqb c backslash then
        match r with
        | [] => None
        | e :: r1 =>
            if Ascii.eqb e "u"%char then
              match r1 with
              | h3 :: h2 :: h1 :: h0 :: r2 =>
                  match hex_value h3, hex_value h2, hex_value h1, hex_value h0 with
                  | Some a, Some b, Some c', Some d =>
                      let n := (((a * 16 + b) * 16 + c') * 16 + d)%N in
                      if (n <? 256)%N then cons_fst (ascii_of_N n) (scanstring r2)
                      else None
                  | _, _, _, _ => None
                  end
              | _ => None
              end
            else
              match unescape e with
              | Some c' => cons_fst c' (scanstring r1)
              | None => None
              end
        end
      else if (N_of_ascii c <? 32)%N then None
      else cons_fst c (scanstring r)
  end.

Definition digit_value (c : ascii) : option (Decimal.uint -> Decimal.uint) :=
  let n := N_of_ascii c in
  if (n =? 48)%N then Some D0 else if (n =? 49)%N then Some D1
  else if (n =? 50)%N then Some D2 else if (n =? 51)%N then Some D3
  else if (n =? 52)%N then Some D4 else if (n =? 53)%N then Some D5
  else if (n =? 54)%N then Some D6 else if (n =? 55)%N then Some D7
  else if (n =? 56)%N then Some D8 else if (n =? 57)%N then Some D9
  else None.

(** The longest run of digits at the head of the text. *)
Fixpoint scan_digits (s : list ascii) : Decimal.uint * list ascii :=
  match s with
  | c :: r =>
      match digit_value c with
      | Some d => let '(ds, r') := scan_digits r in (d ds, r')
      | None => (Nil, s)
      end
  | [] => (Nil, [])
  end.

(** The integer part of [NUMBER_RE]: a single zero, or a digit from 1 to 9
    followed by digits. *)
Definition scan_integer (s : list ascii) : option (N * list ascii) :=
  match s with
  | c :: r =>
      if Ascii.eqb c "0"%char then Some (0%N, r)
      else match digit_value c with
           | Some _ => let '(ds, r') := scan_digits s in Some (Pos.of_uint ds, r')
           | None => None
           end
  | [] => None
  end.

(** A fraction or an exponent follows: the number is a float. *)
Definition float_follows (s : list ascii) : bool :=
  match s with
  | c :: _ => Ascii.eqb c "."%char || Ascii.eqb c "e"%char || Ascii.eqb c "E"%char
  | [] => false
  end.

Definition scan_number (s : list ascii) : option (pyval * list ascii) :=
  match s with
  | c :: r =>
      if Ascii.eqb c "-"%char then
        '(n, r') ← scan_integer r;
        if float_follows r' then None else Some (VInt (- Z.of_N n), r')
      else
        '(n, r') ← scan_integer s;
        if float_follows r' then None else Some (VInt (Z.of_N n), r')
  | [] => None
  end.

(** [s.startswith(lit)], with the text after the literal. *)
Fixpoint strip_prefix (lit s : list ascii) : option (list ascii) :=
  match lit, s with
  | [], _ => Some s
  | a :: lit', b :: s' => if Ascii.eqb a b then strip_prefix lit' s' else None
  | _ :: _, [] => None
  end.

(** The text after a number neither continues it nor turns it into a
    float. *)
Definition ends_number (s : list ascii) : bool :=
  match s with
  | [] => true
  | c :: _ =>
      match digit_value c with
      | Some _ => false
      | None => negb (float_follows s)
      end
  end.

(** [scan_once], [JSONArray] and [JSONObject].  The fuel bounds the number
    of values and of loop iterations, each of which reads a character. *)
Fixpoint parse_value (fuel : nat) (s : list ascii) : option (pyval * list ascii) :=
  match fuel with
  | O => None
  | S fuel =>
      match s with
      | [] => None
      | c :: r =>
          if Ascii.eqb c quote then
            '(str, r') ← scanstring r;
            Some (VStr (string_of_list_ascii str), r')
          else if Ascii.eqb c "{"%char then
            match skip_ws r with
            | c' :: r' =>
                if Ascii.eqb c' "}"%char then Some (VDict [], r')
                else
                  '(pairs, r'') ← parse_pairs fuel (c' :: r');
                  Some (VDict (dict_of_pairs pairs), r'')
            | [] => None
            end
          else if Ascii.eqb c "["%char then
            match skip_ws r with
            | c' :: r' =>
                if Ascii.eqb c' "]"%char then Some (VList [], r')
                else
                  '(items, r'') ← parse_items fuel (c' :: r');
                  Some (VList items, r'')
            | [] => None
            end
          else
            match strip_prefix (chars "null") s with
            | Some r' => Some (VNone, r')
            | None =>
            match strip_prefix (chars "true") s with
            | Some r' => Some (VBool true, r')
            | None =>
            match strip_prefix (chars "false") s with
            | Some r' => Some (VBool false, r')
            | None => scan_number s
            end end end
      end
  end
with parse_items (fuel : nat) (s : list ascii) : option (list pyval * list ascii) :=
  match fuel with
  | O => None
  | S fuel =>
      '(v, r) ← parse_value fuel s;
      match skip_ws r with
      | c :: r' =>
          if Ascii.eqb c "]"%char then Some ([v], r')
          else if Ascii.eqb c ","%char then
            '(vs, r'') ← parse_items fuel (skip_ws r');
            Some (v :: vs, r'')
          else None
      | [] => None
      end
  end
with parse_pairs (fuel : nat) (s : list ascii)
  : option (list (string * pyval) * list ascii) :=
  match fuel with
  | O => None
  | S fuel =>
      match s with
      | c :: r =>
          if Ascii.eqb c quote then
            '(k, r1) ← scanstring r;
            match skip_ws r1 with
            | c1 :: r2 =>
                if Ascii.eqb c1 ":"%char then
                  '(v, r3) ← parse_value fuel (skip_ws r2);
                  match skip_ws r3 with
                  | c3 :: r4 =>
                      if Ascii.eqb c3 "}"%char
                      then Some ([(string_of_list_ascii k, v)], r4)
                      else if Ascii.eqb c3 ","%char then
                        '(kvs, r5) ← parse_pairs fuel (skip_ws r4);
                        Some ((string_of_list_ascii k, v) :: kvs, r5)
                      else None
                  | [] => None
                  end
                else None
            | [] => None
            end
          else None
      | [] => None
      end
  end.

(** The number of values in [v], counting [v] and each item once more:
    the fuel that reading [v] back takes. *)
Fixpoint weight (v : pyval) : nat :=
  match v with
  | VList l => S (list_sum (map (fun x => S (weight x)) l))
  | VDict d => S (list_sum (map (fun kv => S (weight kv.2)) d))
  | _ => 1
  end.

(** The text starts with a character that opens a value. *)
Definition opens_value (s : list ascii) : bool :=
  match s with
  | c :: _ => negb (is_ws c) && negb (Ascii.eqb c "]"%char) && negb (Ascii.eqb c "}"%char)
  | [] => false
  end.

(** [v], written at any level and followed by any text that ends a number,
    is read back with enough fuel. *)
Definition reads_back (v : pyval) : Prop :=
  forall level fuel rest,
    weight v <= fuel -> ends_number rest = true ->
    parse_value fuel (encode level v ++ rest) = Some (v, rest).

(** [json.loads]: one value between optional white space, nothing after. *)
Definition loads (text : string) : option pyval :=
  let s := skip_ws (chars text) in
  '(v, r) ← parse_value (S (length s)) s;
  match skip_ws r with
  | [] => Some v
  | _ :: _ => None
  end.

End Json.

(** ** The world of a run *)

(** A call of the client library [eazyml].  [ez_auth] takes its second
    argument by keyword, [password=] or [api_key=]. *)
Inductive call : Type :=
| ez_auth (username : pyval) (password api_key : option pyval)
| ez_config (token config_file : pyval)
| ez_upload_document (token : pyval) (document_path : string)
    (index_name options : pyval)
| ez_extract_information (token query index_name options : pyval).

(** What [print] receives: literal text, [str(v)] of a value (through [%s]
    or as an argument of [print]), or the seconds of a time difference
    formatted by [%.2f]. *)
Inductive piece : Type :=
| Lit (s : string)
| Str (v : pyval)
| Secs.

(** The file system is a flat map from paths to texts: a path exists if it
    is a key, and any path can be written. *)
Record world : Type := World {
  files : gmap string string;      (* path of a file, its text *)
  stdout : list (list piece);      (* one entry for each [print] *)
  calls : list call                (* the remote calls made, oldest first *)
}.

(** What a run depends on and cannot change: the remote service, which
    answers a call knowing the calls before it, and the module-level name
    [query], bound by the script's entry block only. *)
Record env : Type := Env {
  ez : list call -> call -> pyval;
  global_query : option pyval
}.

(** ** Statements and functions

    A statement ends normally with a value, by [return] or by raising; what
    it did to the world before stays done. *)

Inductive outcome (R A : Type) : Type :=
| Normal (a : A)
| Return (r : R)
| Raise (e : exn).
Arguments Normal {R A} a.
Arguments Return {R A} r.
Arguments Raise {R A} e.

Definition Stmt (R A : Type) : Type := env -> world -> outcome R A * world.

Inductive result (R : Type) : Type :=
| Value (r : R)
| Exception (e : exn).
Arguments Value {R} r.
Arguments Exception {R} e.

Definition Fn (R : Type) : Type := env -> world -> result R * world.

Definition ret {R A} (a : A) : Stmt R A := fun _ w => (Normal a, w).

Definition bind {R A B} (m : Stmt R A) (k : A -> Stmt R B) : Stmt R B :=
  fun e w =>
    match m e w with
    | (Normal a, w') => k a e w'
    | (Return r, w') => (Return r, w')
    | (Raise x, w') => (Raise x, w')
    end.

Definition return_ {R A} (r : R) : Stmt R A := fun _ w => (Return r, w).

Definition raise {R A} (x : exn) : Stmt R A := fun _ w => (Raise x, w).

Declare Scope py_scope.
Delimit Scope py_scope with py.
Notation "x <- m ;; k" := (bind m (fun x => k))
  (at level 100, m at next level, right associativity) : py_scope.
Notation "m ;; k" := (bind m (fun _ => k))
  (at level 100, right associativity) : py_scope.
Notation "'pass'" := (ret tt) : py_scope.

(** [def]: the body of a function.  It leaves by [return] or by raising; a
    body whose last statement is not a [return] ends with [return None]. *)
Definition def {R} (body : Stmt R Empty_set) : Fn R :=
  fun e w =>
    match body e w with
    | (Normal a, _) => match a with end
    | (Return r, w') => (Value r, w')
    | (Raise x, w') => (Exception x, w')
    end.

(** A call of a function, as a statement of the caller. *)
Definition call_fn {R R'} (f : Fn R') : Stmt R R' :=
  fun e w =>
    match f e w with
    | (Value r, w') => (Normal r, w')
    | (Exception x, w') => (Raise x, w')
    end.

Definition lift {R A} (r : exn + A) : Stmt R A :=
  match r with
  | inr a => ret a
  | inl x => raise x
  end.

(** [print(...)]. *)
Definition print {R} (l : list piece) : Stmt R unit :=
  fun _ w => (Normal tt, World (files w) (stdout w ++ [l]) (calls w)).

(** [os.path.exists(path)]. *)
Definition os_path_exists {R} (path : string) : Stmt R bool :=
  fun _ w => (Normal (isSome (files w !! path)), w).

(** [json.load(open(path))].  A text outside what the decoder covers counts
    as one it rejects. *)
Definition json_load {R} (path : string) : Stmt R pyval :=
  fun _ w =>
    match files w !! path with
    | Some text =>
        match Json.loads text with
        | Some v => (Normal v, w)
        | None => (Raise JSONDecodeError, w)
        end
    | None => (Raise FileNotFoundError, w)
    end.

(** [with open(path, "w") as fw: fw.write(text)]. *)
Definition write_file {R} (path text : string) : Stmt R unit :=
  fun _ w => (Normal tt, World (<[path := text]> (files w)) (stdout w) (calls w)).

(** A call [ez.f(...)]: the service answers, the call is recorded. *)
Definition remote {R} (c : call) : Stmt R pyval :=
  fun e w => (Normal (ez e (calls w) c), World (files w) (stdout w) (calls w ++ [c])).

(** The value of the module-level name [query]. *)
Definition global_name_query {R} : Stmt R pyval :=
  fun e w =>
    match global_query e with
    | Some v => (Normal v, w)
    | None => (Raise (NameError "query"), w)
    end.

(** The value of a local name that an earlier branch may have left unbound. *)
Definition local {R} (name : string) (v : option pyval) : Stmt R pyval :=
  match v with
  | Some x => ret x
  | None => raise (UnboundLocalError name)
  end.

(** A tuple of two items is not empty: it is true. *)
Definition truthy_tuple (t : pyval * pyval) : bool := true.

(** Running a statement in a proof: unfold the operations, reduce, and use
    a hypothesis on what a test or a lookup gives. *)
Ltac py_unfold :=
  unfold def, call_fn, bind, lift, local, ret, return_, raise, print,
    os_path_exists, json_load, write_file, remote, global_name_query.

Ltac py_simpl :=
  cbn [fst snd files stdout calls ez global_query isSome negb andb].

Ltac py_step H := rewrite H; py_simpl; repeat (rewrite H; py_simpl).

(** ** The script *)

Local Open Scope py_scope.

Definition AUTH_FILE : string := "authentication.json".
Definition UPLOAD_FILE : string := "upload_document.json".
Definition EXTRACT_FILE : string := "extract_information.json".

(** [eazyml_upload(token, document_path, index_name, overwrite, prefix_name)] *)
Definition eazyml_upload (token : pyval) (document_path : string)
    (index_name overwrite : pyval) (prefix_name : string) : Fn pyval :=
  def (
    let options := VDict [("overwrite", overwrite)] in
    doc <- os_path_exists document_path ;;
    (if negb doc then
       print [Lit "Document doesn't exist - "; Str (VStr document_path)] ;;
       return_ VNone
     else pass) ;;
    let dump_file := prefix_name +:+ "_" +:+ UPLOAD_FILE in
    cached <- os_path_exists dump_file ;;
    (if cached then
       resp <- json_load dump_file ;;
       index <- lift (getitem resp "indexed") ;;
       print [Lit "Returning from cache"; Lit " "; Str (VStr dump_file)] ;;
       return_ index
     else pass) ;;
    print [Lit "Indexing the document ..."] ;;
    resp <- remote (ez_upload_document token document_path index_name options) ;;
    print [Str resp] ;;
    success <- lift (getitem resp "success") ;;
    index <-
      (if is_True success then
         print [Lit "The document is indexed successfully to EazyML from path: ";
                Str (VStr document_path)] ;;
         index <- lift (getitem resp "indexed") ;;
         let json_obj := Json.dumps resp in
         let dump_file := prefix_name +:+ "_" +:+ UPLOAD_FILE in
         write_file dump_file json_obj ;;
         print [Lit "The response is stored in "; Str (VStr dump_file)] ;;
         ret index
       else
         message <- lift (getitem resp "message") ;;
         print [Lit "Upload document error: "; Str message] ;;
         ret (VBool false)) ;;
    print [Lit "Indexing document time: "; Secs; Lit " secs"] ;;
    indexed <- lift (getitem resp "indexed") ;;
    print [Lit "A Boolean flag indicating whether document is stored ";
           Lit "(indexed) is: "; Str indexed] ;;
    print [Lit "Likely next steps:"] ;;
    query <- global_name_query ;;
    print [Lit "    python eazyml_upload_extract_information.py ";
           Lit "--query "; Str query; Lit " --index_name "; Str index_name;
           Lit " --extract_information"] ;;
    print [Lit "Please provide an existing index name that you mentioned ";
           Lit "while uploading a document."] ;;
    return_ index).

(** [eazyml_extract_information(token, api_name, query, index_name,
    prefix_name)].  The locals [answer] and [resp] are bound inside the [if]
    only; the final [return] reads them. *)
Definition eazyml_extract_information (token api_name query index_name : pyval)
    (prefix_name : string) : Fn (pyval * pyval) :=
  def (
    locals <-
      (if eq_str api_name "extract_information" then
         let options := VDict [] in
         let dump_file := prefix_name +:+ "_" +:+ EXTRACT_FILE in
         cached <- os_path_exists dump_file ;;
         (if cached then
            resp <- json_load dump_file ;;
            has_answer <- lift (contains "answer" resp) ;;
            answer <-
              (if has_answer then
                 a <- lift (getitem resp "answer") ;; ret (Some a)
               else ret None) ;;
            print [Lit "Returning from cache"; Lit " "; Str (VStr dump_file)] ;;
            a <- local "answer" answer ;;
            return_ (a, resp)
          else pass) ;;
         print [Lit "Extracting Information "] ;;
         resp <- remote (ez_extract_information token query index_name options) ;;
         success <- lift (getitem resp "success") ;;
         (if is_True success then
            print [Lit "Information extracted successfully"] ;;
            let json_obj := Json.dumps resp in
            let dump_file := prefix_name +:+ "_" +:+ EXTRACT_FILE in
            write_file dump_file json_obj ;;
            print [Lit "The response is stored in "; Str (VStr dump_file)]
          else
            message <- lift (getitem resp "message") ;;
            print [Lit "Information Extraction error: "; Str message] ;;
            return_ (VNone, VNone)) ;;
         print [Lit "Information Extracting time: "; Secs; Lit " secs"] ;;
         answer <- lift (getitem resp "answer") ;;
         print [Lit "The answer retrieved for provided query from the ";
                Lit "document is: "; Str answer] ;;
         ret (Some answer, Some resp)
       else ret (None, None)) ;;
    answer <- local "answer" locals.1 ;;
    resp <- local "resp" locals.2 ;;
    return_ (answer, resp)).

(** [eazyml_auth(username, api_key, password, store_info)] *)
Definition eazyml_auth (username api_key password store_info : pyval) : Fn pyval :=
  def (
    rc <-
      (if is_not_None password then
         resp <- remote (ez_auth username (Some password) None) ;;
         ret (resp, VDict [("username", username); ("api_key", api_key);
                           ("password", password)])
       else
         resp <- remote (ez_auth username None (Some api_key)) ;;
         ret (resp, VDict [("username", username); ("api_key", api_key);
                           ("password", password)])) ;;
    let resp := rc.1 in
    let content := rc.2 in
    success <- lift (getitem resp "success") ;;
    (if is_True success then
       print [Lit "Authentication successful"] ;;
       (if truthy store_info then
          let json_obj := Json.dumps content in
          write_file AUTH_FILE json_obj ;;
          print [Lit "Authentication information is stored in ";
                 Str (VStr AUTH_FILE)]
        else pass)
     else
       message <- lift (getitem resp "message") ;;
       print [Lit "Authentication error: "; Str message] ;;
       return_ VNone) ;;
    token <- lift (getitem resp "token") ;;
    return_ token).

(** A command-line value: [None] or a string. *)
Definition of_arg (a : option string) : pyval :=
  match a with
  | Some s => VStr s
  | None => VNone
  end.

(** [flow(username, api_key, config_file, prefix_name, document_path,
    index_name, overwrite, api_name, query)], block by block.  A block ends
    normally, and the next one runs, or leaves [flow] by [return]. *)

(** [# Get Authentication token] *)
Definition flow_get_token (username api_key : pyval) : Stmt pyval pyval :=
  if truthy username && truthy api_key then
    call_fn (eazyml_auth username api_key VNone (VBool true))
  else
    stored <- os_path_exists AUTH_FILE ;;
    if stored then
      auth_info <- json_load AUTH_FILE ;;
      u <- lift (getitem auth_info "username") ;;
      k <- lift (getitem auth_info "api_key") ;;
      p <- lift (getitem auth_info "password") ;;
      call_fn (eazyml_auth u k p (VBool false))
    else
      print [Lit "Please authenticate to proceed"] ;;
      return_ VNone.

(** [# Set config file] *)
Definition flow_set_config (token config_file : pyval) : Stmt pyval unit :=
  if truthy config_file then
    print [Lit "Uploading the configuration file ..."] ;;
    resp <- remote (ez_config token config_file) ;;
    success <- lift (getitem resp "success") ;;
    if is_True success then
      print [Lit "Configuration file is uploaded successfully"]
    else
      message <- lift (getitem resp "message") ;;
      print [Lit "Configuration file upload error: "; Str message] ;;
      return_ VNone
  else pass.

(** [# upload document] *)
Definition flow_upload_document (token : pyval) (prefix_name : string)
    (document_path : option string) (index_name overwrite : pyval)
  : Stmt pyval unit :=
  if truthy (of_arg document_path) then
    (if negb (truthy index_name) then
       print [Lit "Please provide the index name"] ;;
       return_ VNone
     else pass) ;;
    index <- call_fn (eazyml_upload token (default "" document_path)
                        index_name overwrite prefix_name) ;;
    (if negb (truthy index) then return_ VNone else pass)
  else pass.

(** [# Extract Information] *)
Definition flow_extract_information (token : pyval) (prefix_name : string)
    (index_name api_name query : pyval) : Stmt pyval unit :=
  if truthy api_name then
    (if negb (truthy query) then
       print [Lit "Please provide query to be asked in double quotes"] ;;
       return_ VNone
     else pass) ;;
    (if negb (truthy index_name) then
       print [Lit "Please provide index_name that was mentioned while";
              Lit " uploading document"]
     else pass) ;;
    success <- call_fn (eazyml_extract_information token api_name query
                          index_name prefix_name) ;;
    (if negb (truthy_tuple success) then return_ VNone else pass)
  else pass.

(** The counter [check_complete_flow] is written and never read; it is left
    out.  A body that reaches its end returns [None]. *)
Definition flow (username api_key config_file : pyval) (prefix_name : string)
    (document_path : option string) (index_name overwrite api_name query : pyval)
  : Fn pyval :=
  def (
    token <- flow_get_token username api_key ;;
    flow_set_config token config_file ;;
    flow_upload_document token prefix_name document_path index_name overwrite ;;
    flow_extract_information token prefix_name index_name api_name query ;;
    return_ VNone).

Local Close Scope py_scope.

(** ** Names for the statements *)

(** The cache file of each step. *)
Definition upload_cache (prefix_name : string) : string :=
  prefix_name +:+ "_" +:+ UPLOAD_FILE.

Definition extract_cache (prefix_name : string) : string :=
  prefix_name +:+ "_" +:+ EXTRACT_FILE.

(** The remote call of each step. *)
Definition upload_request (token : pyval) (document_path : string)
    (index_name overwrite : pyval) : call :=
  ez_upload_document token document_path index_name (VDict [("overwrite", overwrite)]).

Definition extract_request (token query index_name : pyval) : call :=
  ez_extract_information token query index_name (VDict []).

(** The credentials [eazyml_auth] stores. *)
Definition credentials (username api_key password : pyval) : pyval :=
  VDict [("username", username); ("api_key", api_key); ("password", password)].

(** The call [eazyml_auth] makes: by password if there is one. *)
Definition auth_request (username api_key password : pyval) : call :=
  if is_not_None password then ez_auth username (Some password) None
  else ez_auth username None (Some api_key).

(** The first two blocks of [flow], ending with the token. *)
Definition flow_prelude (username api_key config_file : pyval) : Stmt pyval pyval :=
  (token <- flow_get_token username api_key ;;
   flow_set_config token config_file ;;
   ret token)%py.

(** The file at [path] is the text [json.dumps(v, indent=4)], and
    [json.load] reads [v] back from it. *)
Definition holds_json (fs : gmap string string) (path : string) (v : pyval) : Prop :=
  fs !! path = Some (Json.dumps v) /\ Json.loads (Json.dumps v) = Some v.

(** ** Sample runs

    A service that accepts everything, one that refuses everything, and a
    few worlds, for the examples among the facts below. *)

Definition accepting (history : list call) (c : call) : pyval :=
  match c with
  | ez_auth _ _ _ => VDict [("success", VBool true); ("token", VStr "tok")]
  | ez_config _ _ => VDict [("success", VBool true)]
  | ez_upload_document _ _ _ _ =>
      VDict [("success", VBool true); ("indexed", VBool true);
             ("message", VStr "indexed")]
  | ez_extract_information _ _ _ _ =>
      VDict [("success", VBool true); ("answer", VStr "42");
             ("message", VStr "done")]
  end.

Definition refusing (history : list call) (c : call) : pyval :=
  VDict [("success", VBool false); ("message", VStr "refused")].

(** A service that refuses the credentials and accepts the rest. *)
Definition refusing_auth (history : list call) (c : call) : pyval :=
  match c with
  | ez_auth _ _ _ => refusing history c
  | _ => accepting history c
  end.

(** The script run as a program binds [query] before [flow] starts; a module
    that imports the functions does not. *)
Definition as_script (service : list call -> call -> pyval) : env :=
  Env service (Some (VStr "what is the total?")).

Definition as_module (service : list call -> call -> pyval) : env :=
  Env service None.

Definition no_files : world := World ∅ [] [].

Definition with_document : world := World {[ "doc.pdf" := "%PDF" ]} [] [].

Definition cached_upload : string :=
  Json.dumps (VDict [("success", VBool true); ("indexed", VBool true)]).

Definition with_upload_cache : world :=
  World {[ "EazyML_upload_document.json" := cached_upload ]} [] [].

Definition with_document_and_cache : world :=
  World (<[ "doc.pdf" := "%PDF" ]> (files with_upload_cache)) [] [].

Definition cached_answer : pyval :=
  VDict [("success", VBool true); ("answer", VStr "42")].

Definition with_extract_cache : world :=
  World {[ "EazyML_extract_information.json" := Json.dumps cached_answer ]} [] [].



(** ** The entry block

    The block under [if __name__ == "__main__"]: the loop over the options
    that [getopt.getopt] has parsed, the shell command that removes the
    JSON files of the prefix, and the call of [flow].  The parsed options
    are the input; the shell is a parameter, a function on the files. *)

Module Entry.

(** The names the block binds before the loop and updates in it. *)
Record settings : Type := Settings {
  username : option string;
  api_key : option string;
  config_file : option string;
  overwrite : string;
  document_path : option string;
  index_name : option string;
  query : option string;
  api_name : option string;
  prefix_name : string
}.

Definition initial : settings :=
  Settings None None None "no" None None None None "EazyML".

(** How the block ends: after [flow], or by [exit()]. *)
Inductive ending : Type :=
| Completed
| SystemExit.

(** [curr_arg in (short, long)]. *)
Definition is_option (curr_arg short long : string) : bool :=
  (curr_arg =? short)%string || (curr_arg =? long)%string.

(** [curr_val.startswith('--')]. *)
Definition starts_with_dashes (curr_val : string) : bool :=
  String.prefix "--" curr_val.

Local Open Scope py_scope.

(** [open(path, "r").readlines()], joined. *)
Definition read_text {R} (path : string) : Stmt R string :=
  fun _ w =>
    match files w !! path with
    | Some text => (Normal text, w)
    | None => (Raise FileNotFoundError, w)
    end.

(** One turn of the loop. *)
Definition option_step (st : settings) (curr_arg curr_val : string)
  : Stmt ending settings :=
  print [Str (VStr curr_arg); Lit " "; Str (VStr curr_val)] ;;
  if is_option curr_arg "-h" "--help" then
    text <- read_text "help.txt" ;;
    print [Str (VStr text)] ;;
    return_ SystemExit
  else if is_option curr_arg "-u" "--username" && negb (starts_with_dashes curr_val) then
    ret (Settings (Some curr_val) (api_key st) (config_file st) (overwrite st)
           (document_path st) (index_name st) (query st) (api_name st) (prefix_name st))
  else if is_option curr_arg "-p" "--api_key" && negb (starts_with_dashes curr_val) then
    ret (Settings (username st) (Some curr_val) (config_file st) (overwrite st)
           (document_path st) (index_name st) (query st) (api_name st) (prefix_name st))
  else if is_option curr_arg "-g" "--config_file" then
    ret (Settings (username st) (api_key st) (Some curr_val) (overwrite st)
           (document_path st) (index_name st) (query st) (api_name st) (prefix_name st))
  else if is_option curr_arg "-x" "--prefix_name" && negb (starts_with_dashes curr_val) then
    ret (Settings (username st) (api_key st) (config_file st) (overwrite st)
           (document_path st) (index_name st) (query st) (api_name st) curr_val)
  else if is_option curr_arg "-d" "--document_path" && negb (starts_with_dashes curr_val) then
    ret (Settings (username st) (api_key st) (config_file st) (overwrite st)
           (Some curr_val) (index_name st) (query st) (api_name st) (prefix_name st))
  else if is_option curr_arg "-o" "--overwrite" && negb (starts_with_dashes curr_val) then
    ret (Settings (username st) (api_key st) (config_file st) curr_val
           (document_path st) (index_name st) (query st) (api_name st) (prefix_name st))
  else if is_option curr_arg "-e" "--extract_information" then
    print [Lit "API name: "; Lit " "; Str (VStr "extract_information")] ;;
    ret (Settings (username st) (api_key st) (config_file st) (overwrite st)
           (document_path st) (index_name st) (query st) (Some "extract_information")
           (prefix_name st))
  else if is_option curr_arg "-i" "--index_name" && negb (starts_with_dashes curr_val) then
    ret (Settings (username st) (api_key st) (config_file st) (overwrite st)
           (document_path st) (Some curr_val) (query st) (api_name st) (prefix_name st))
  else if is_option curr_arg "-q" "--query" && negb (starts_with_dashes curr_val) then
    ret (Settings (username st) (api_key st) (config_file st) (overwrite st)
           (document_path st) (index_name st) (Some curr_val) (api_name st) (prefix_name st))
  else ret st.

(** [for curr_arg, curr_val in arguments: ...] *)
Fixpoint options_loop (arguments : list (string * string)) (st : settings)
  : Stmt ending settings :=
  match arguments with
  | [] => ret st
  | (curr_arg, curr_val) :: rest =>
      st' <- option_step st curr_arg curr_val ;;
      options_loop rest st'
  end.

(** The functions called from the block see its [query] as the global
    [query]. *)
Definition with_global_query {R A} (query : pyval) (m : Stmt R A) : Stmt R A :=
  fun e w => m (Env (ez e) (Some query)) w.

Section Shell.
(** What a shell command does to the files. *)
Variable sh : string -> gmap string string -> gmap string string.

(** [os.system(command)]; the exit status is not used. *)
Definition os_system {R} (command : string) : Stmt R unit :=
  fun _ w => (Normal tt, World (sh command (files w)) (stdout w) (calls w)).

(** The block, from the parsed options on.  An exception other than
    [getopt.error] is not caught. *)
Definition main (arguments : list (string * string)) : Fn ending :=
  def (
    st <- options_loop arguments initial ;;
    os_system ("rm -f " +:+ prefix_name st +:+ "*.json") ;;
    with_global_query (of_arg (query st))
      (call_fn (flow (of_arg (username st)) (of_arg (api_key st))
                  (of_arg (config_file st)) (prefix_name st) (document_path st)
                  (of_arg (index_name st)) (VStr (overwrite st))
                  (of_arg (api_name st)) (of_arg (query st)))) ;;
    return_ Completed).

End Shell.

Local Close Scope py_scope.

(** What the loop keeps true of the names it binds: a value that starts
    with two dashes is never taken for a guarded option, and [api_name] is
    [None] or the one name the extractor knows. *)
Definition no_dashes (o : option string) : bool :=
  match o with
  | Some v => negb (starts_with_dashes v)
  | None => true
  end.

Definition guarded (st : settings) : bool :=
  no_dashes (username st) && no_dashes (api_key st) &&
  no_dashes (document_path st) && no_dashes (index_name st) &&
  no_dashes (query st) &&
  negb (starts_with_dashes (overwrite st)) &&
  negb (starts_with_dashes (prefix_name st)).

Definition api_name_known (st : settings) : bool :=
  match api_name st with
  | Some a => (a =? "extract_information")%string
  | None => true
  end.

(** One of the parsed options asks for the help text. *)
Definition asks_help (arguments : list (string * string)) : bool :=
  existsb (fun av => is_option av.1 "-h" "--help") arguments.

(** A shell whose [rm -f <prefix>*.json] removes the two cache files of
    the prefix, and nothing else; any other command does nothing. *)
Definition sample_shell (command : string) (fs : gmap string string)
  : gmap string string :=
  if (command =? "rm -f EazyML*.json")%string
  then delete "EazyML_upload_document.json"
         (delete "EazyML_extract_information.json" fs)
  else fs.

End Entry.

(** The line a cache branch prints. *)
Definition cache_line (path : string) : list piece :=
  [Lit "Returning from cache"; Lit " "; Str (VStr path)].

(** From [w] to [w']: only the files listed may differ, and the remote
    calls of [w] are still there, in order, before the new ones. *)
Definition extends (w w' : world) (changed : list string) : Prop :=
  (forall path, path ∉ changed -> files w' !! path = files w !! path) /\
  calls w `prefix_of` calls w'.

(** From [w] to [w']: lines were printed, none of them by a cache branch. *)
Definition quiet (w w' : world) : Prop :=
  exists new, stdout w' = stdout w ++ new /\ forall path, cache_line path ∉ new.

(** Sample worlds for the entry block and the stored credentials. *)
Definition with_help : world :=
  World {[ "help.txt" := "usage: ..." ]} [] [].

Definition stored_credentials : pyval :=
  credentials (VStr "user") (VStr "key") VNone.

Definition with_auth_file : world :=
  World {[ "authentication.json" := Json.dumps stored_credentials ]} [] [].


(** Parsed options of a run, and the names the loop binds from them: the
    value [--oops] is not taken for the query. *)
Definition sample_arguments : list (string * string) :=
  [("--username", "user"); ("-p", "key"); ("-d", "doc.pdf");
   ("--index_name", "idx"); ("-e", ""); ("-q", "--oops"); ("--query", "total?")].

Definition sample_settings : Entry.settings :=
  Entry.Settings (Some "user") (Some "key") None "no" (Some "doc.pdf")
    (Some "idx") (Some "total?") (Some "extract_information") "EazyML".

(** An auth file written by hand, without the entry [password]. *)
Definition partial_credentials : pyval :=
  VDict [("username", VStr "user"); ("api_key", VStr "key")].

Definition with_partial_auth_file : world :=
  World {[ "authentication.json" := Json.dumps partial_credentials ]} [] [].

(** A service that accepts without the key the caller reads next. *)
Definition accepting_bare (history : list call) (c : call) : pyval :=
  VDict [("success", VBool true)].

(** A service that refuses and still says whether the document is indexed. *)
Definition refusing_indexed (history : list call) (c : call) : pyval :=
  VDict [("success", VBool false); ("indexed", VBool false);
         ("message", VStr "refused")].

(** A service that refuses the configuration file and accepts the rest. *)
Definition refusing_config (history : list call) (c : call) : pyval :=
  match c with
  | ez_config _ _ => refusing history c
  | _ => accepting history c
  end.

(** A service that accepts and reports the document as not indexed. *)
Definition not_indexing (history : list call) (c : call) : pyval :=
  match c with
  | ez_upload_document _ _ _ _ =>
      VDict [("success", VBool true); ("indexed", VBool false)]
  | _ => accepting history c
  end.

(** * Facts *)

(** ** Induction on values *)

Lemma pyval_ind (P : pyval -> Prop)
    (HNone : P VNone)
    (HBool : forall b, P (VBool b))
    (HInt : forall z, P (VInt z))
    (HStr : forall s, P (VStr s))
    (HList : forall l, Forall P l -> P (VList l))
    (HDict : forall d, Forall (fun kv => P kv.2) d -> P (VDict d)) :
  forall v, P v.
Proof.
  fix IH 1. intros [ | b | z | s | l | d ].
  - exact HNone.
  - apply HBool.
  - apply HInt.
  - apply HStr.
  - apply HList. induction l as [ | x l IHl ]; constructor; [ apply IH | exact IHl ].
  - apply HDict. induction d as [ | [k x] d IHd ]; constructor; [ apply IH | exact IHd ].
Qed.

(** ** The decoder reads back what the encoder writes *)

Section JsonRoundTrip.
Import Json.

(** White space. *)
Lemma skip_ws_spaces n (s : list ascii) :
  skip_ws (repeat " "%char n ++ s) = skip_ws s.
Proof. induction n as [ | n IH ]; [ reflexivity | exact IH ]. Qed.

Lemma skip_ws_newline_indent level (s : list ascii) :
  skip_ws (newline_indent level ++ s) = skip_ws s.
Proof. unfold newline_indent. cbn [app skip_ws]. apply skip_ws_spaces. Qed.

(** Strings. *)
Lemma scanstring_escape_char c (s : list ascii) :
  scanstring (escape_char c ++ s) = cons_fst c (scanstring s).
Proof.
  destruct c as [[] [] [] [] [] [] [] []]; reflexivity.
Qed.

Lemma scanstring_escaped (cs rest : list ascii) :
  scanstring (concat (map escape_char cs) ++ quote :: rest) = Some (cs, rest).
Proof.
  induction cs as [ | c cs IH ]; [ reflexivity | ].
  cbn [map concat]. rewrite <- app_assoc, scanstring_escape_char, IH.
  reflexivity.
Qed.

(** Integers. *)
Lemma scan_digits_uint_chars d (rest : list ascii) :
  ends_number rest = true ->
  scan_digits (uint_chars d ++ rest) = (d, rest).
Proof.
  intros Hrest.
  induction d as [ | d IH | d IH | d IH | d IH | d IH | d IH | d IH | d IH | d IH | d IH ];
    try (cbn; rewrite IH; reflexivity).
  destruct rest as [ | c rest ]; [ reflexivity | ].
  cbn in *. destruct (digit_value c); [ discriminate | reflexivity ].
Qed.

Lemma nzhead_no_leading_zero d d' : nzhead d <> D0 d'.
Proof. induction d; cbn; try discriminate. exact IHd. Qed.

Lemma to_uint_no_leading_zero p d : Pos.to_uint p <> D0 d.
Proof.
  intros H.
  pose proof (DecimalPos.Unsigned.to_of (Pos.to_uint p)) as Hn.
  rewrite DecimalPos.Unsigned.of_to in Hn. cbn in Hn.
  rewrite H in Hn. rewrite DecimalFacts.unorm_D0 in Hn.
  unfold unorm in Hn.
  destruct (nzhead d) eqn:Hd; try discriminate.
  - injection Hn as ->. apply (DecimalPos.Unsigned.to_uint_nonzero p H).
  - apply (nzhead_no_leading_zero d d). congruence.
Qed.

Lemma float_follows_ends_number (s : list ascii) :
  ends_number s = true -> float_follows s = false.
Proof.
  destruct s as [ | c s ]; [ reflexivity | ].
  cbn. destruct (digit_value c); [ discriminate | ].
  intros H. apply negb_true_iff in H. exact H.
Qed.

Lemma scan_integer_uint_chars d (rest : list ascii) :
  ends_number rest = true ->
  d <> Nil -> (forall d', d <> D0 d') ->
  scan_integer (uint_chars d ++ rest) = Some (Pos.of_uint d, rest).
Proof.
  intros Hrest Hnil Hzero.
  pose proof (scan_digits_uint_chars d rest Hrest) as E.
  destruct d; [ congruence | exfalso; eapply Hzero; reflexivity | .. ];
    unfold scan_integer; cbn [uint_chars app] in *; rewrite E; reflexivity.
Qed.

Lemma scan_number_encode_int z (rest : list ascii) :
  ends_number rest = true ->
  scan_number (encode_int z ++ rest) = Some (VInt z, rest).
Proof.
  intros Hrest.
  pose proof (float_follows_ends_number rest Hrest) as Hf.
  destruct z as [ | p | p ].
  - cbn. rewrite Hf. reflexivity.
  - pose proof (scan_integer_uint_chars (Pos.to_uint p) rest Hrest
                  (DecimalPos.Unsigned.to_uint_nonnil p)
                  (to_uint_no_leading_zero p)) as E.
    rewrite DecimalPos.Unsigned.of_to in E.
    unfold scan_number, encode_int.
    destruct (uint_chars (Pos.to_uint p) ++ rest) as [ | c s ] eqn:Hs;
      [ discriminate | ].
    assert (Ascii.eqb c "-"%char = false) as ->.
    { destruct (Ascii.eqb_spec c "-"%char) as [-> | ]; [ discriminate | reflexivity ]. }
    rewrite E. cbn. rewrite Hf. reflexivity.
  - pose proof (scan_integer_uint_chars (Pos.to_uint p) rest Hrest
                  (DecimalPos.Unsigned.to_uint_nonnil p)
                  (to_uint_no_leading_zero p)) as E.
    rewrite DecimalPos.Unsigned.of_to in E.
    unfold scan_number, encode_int. cbn [app Ascii.eqb Bool.eqb].
    cbn - [scan_integer]. rewrite E. cbn. rewrite Hf. reflexivity.
Qed.

(** A number starts with a digit or a minus sign: [scan_once] reaches the
    number pattern. *)
Lemma parse_value_encode_int fuel z (rest : list ascii) :
  ends_number rest = true ->
  parse_value (S fuel) (encode_int z ++ rest) = Some (VInt z, rest).
Proof.
  intros Hrest.
  rewrite <- (scan_number_encode_int z rest Hrest).
  destruct z as [ | p | p ]; [ reflexivity | | reflexivity ].
  unfold encode_int.
  pose proof (DecimalPos.Unsigned.to_uint_nonnil p) as Hnil.
  destruct (Pos.to_uint p); [ congruence | reflexivity .. ].
Qed.

(** Dicts: pairs with distinct keys make the dict with these pairs. *)
Lemma dict_set_fresh k v (acc : list (string * pyval)) :
  forallb (fun kv => negb (kv.1 =? k)%string) acc = true ->
  dict_set k v acc = acc ++ [(k, v)].
Proof.
  induction acc as [ | [k' v'] acc IH ]; [ reflexivity | ].
  cbn. intros H. apply andb_true_iff in H as [Hk H].
  apply negb_true_iff in Hk. rewrite Hk, (IH H). reflexivity.
Qed.

Lemma nodup_keys_fresh (acc : list (string * pyval)) k v rest :
  nodup_keys (map fst (acc ++ (k, v) :: rest)) = true ->
  forallb (fun kv => negb (kv.1 =? k)%string) acc = true.
Proof.
  induction acc as [ | [k' v'] acc IH ]; [ reflexivity | ].
  cbn. intros H. apply andb_true_iff in H as [Hk H].
  rewrite (IH H), andb_true_r.
  apply negb_true_iff in Hk. apply negb_true_iff.
  destruct (String.eqb_spec k' k) as [-> | ]; [ | reflexivity ].
  rewrite map_app, existsb_app in Hk. cbn in Hk.
  rewrite String.eqb_refl, orb_true_r in Hk. discriminate.
Qed.

Lemma fold_dict_set (pairs acc : list (string * pyval)) :
  nodup_keys (map fst (acc ++ pairs)) = true ->
  fold_left (fun d kv => dict_set kv.1 kv.2 d) pairs acc = acc ++ pairs.
Proof.
  revert acc. induction pairs as [ | [k v] pairs IH ]; intros acc H.
  - cbn. rewrite app_nil_r. reflexivity.
  - cbn. rewrite (dict_set_fresh k v acc (nodup_keys_fresh acc k v pairs H)).
    rewrite IH; rewrite <- app_assoc; [ reflexivity | exact H ].
Qed.

Lemma dict_of_pairs_nodup (pairs : list (string * pyval)) :
  nodup_keys (map fst pairs) = true -> dict_of_pairs pairs = pairs.
Proof. intros H. unfold dict_of_pairs. rewrite fold_dict_set; [ reflexivity | exact H ]. Qed.

(** The first character of an encoded value. *)
Lemma opens_value_encode_string k (s : list ascii) :
  opens_value (encode_string k ++ s) = true.
Proof. reflexivity. Qed.

Lemma opens_value_encode level v (s : list ascii) :
  opens_value (encode level v ++ s) = true.
Proof.
  destruct v as [ | [] | z | k | [] | [] ]; try reflexivity.
  destruct z as [ | p | p ]; try reflexivity.
  unfold encode, encode_int.
  pose proof (DecimalPos.Unsigned.to_uint_nonnil p) as Hnil.
  destruct (Pos.to_uint p); [ congruence | reflexivity .. ].
Qed.

Lemma skip_ws_opens_value (s : list ascii) :
  opens_value s = true -> skip_ws s = s.
Proof.
  destruct s as [ | c s ]; [ discriminate | ].
  cbn. destruct (is_ws c); [ discriminate | reflexivity ].
Qed.

(** Lists. *)
Lemma opens_value_join_encode level lv x (xs : list pyval) (s : list ascii) :
  opens_value (join (separator level) (map (encode lv) (x :: xs)) ++ s) = true.
Proof.
  destruct xs; cbn [map join]; rewrite <- ?app_assoc; apply opens_value_encode.
Qed.

Lemma skip_ws_cons c (s : list ascii) :
  is_ws c = false -> skip_ws (c :: s) = c :: s.
Proof. intros H. cbn. rewrite H. reflexivity. Qed.

Lemma join_cons2 sep (p q : list ascii) ps :
  join sep (p :: q :: ps) = p ++ sep ++ join sep (q :: ps).
Proof. reflexivity. Qed.

Lemma parse_items_eq fuel (s : list ascii) :
  parse_items (S fuel) s =
  match parse_value fuel s with
  | Some (v, r) =>
      match skip_ws r with
      | c :: r' =>
          if Ascii.eqb c "]"%char then Some ([v], r')
          else if Ascii.eqb c ","%char then
            match parse_items fuel (skip_ws r') with
            | Some (vs, r'') => Some (v :: vs, r'')
            | None => None
            end
          else None
      | [] => None
      end
  | None => None
  end.
Proof. reflexivity. Qed.

Lemma parse_items_join level (l : list pyval) :
  Forall reads_back l -> l <> [] ->
  forall fuel rest,
    list_sum (map (fun x => S (weight x)) l) <= fuel ->
    parse_items fuel
      (join (separator (S level)) (map (encode (S level)) l) ++
       newline_indent level ++ "]"%char :: rest) = Some (l, rest).
Proof.
  induction 1 as [ | x xs Hx Hxs IH ]; [ congruence | intros _ fuel rest Hfuel ].
  cbn [map list_sum foldr] in Hfuel.
  destruct fuel as [ | fuel ]; [ lia | ].
  rewrite parse_items_eq.
  destruct xs as [ | y ys ].
  - cbn [map join].
    rewrite (Hx (S level) fuel (newline_indent level ++ "]"%char :: rest));
      [ | cbn in Hfuel; lia | reflexivity ].
    rewrite skip_ws_newline_indent, skip_ws_cons by reflexivity.
    reflexivity.
  - cbn [map]. rewrite join_cons2, <- !app_assoc.
    unfold separator at 1. rewrite <- app_comm_cons.
    rewrite (Hx (S level) fuel); [ | cbn in Hfuel; lia | reflexivity ].
    rewrite skip_ws_cons by reflexivity.
    cbn [Ascii.eqb Bool.eqb]. cbv iota.
    rewrite skip_ws_newline_indent.
    change (encode (S level) y :: map (encode (S level)) ys)
      with (map (encode (S level)) (y :: ys)).
    rewrite skip_ws_opens_value by apply opens_value_join_encode.
    rewrite IH; [ reflexivity | discriminate | cbn in Hfuel |- *; lia ].
Qed.

(** Dicts. *)
Lemma parse_pairs_eq fuel (r : list ascii) :
  parse_pairs (S fuel) (quote :: r) =
  match scanstring r with
  | Some (k, r1) =>
      match skip_ws r1 with
      | c1 :: r2 =>
          if Ascii.eqb c1 ":"%char then
            match parse_value fuel (skip_ws r2) with
            | Some (v, r3) =>
                match skip_ws r3 with
                | c3 :: r4 =>
                    if Ascii.eqb c3 "}"%char
                    then Some ([(string_of_list_ascii k, v)], r4)
                    else if Ascii.eqb c3 ","%char then
                      match parse_pairs fuel (skip_ws r4) with
                      | Some (kvs, r5) => Some ((string_of_list_ascii k, v) :: kvs, r5)
                      | None => None
                      end
                    else None
                | [] => None
                end
            | None => None
            end
          else None
      | [] => None
      end
  | None => None
  end.
Proof. reflexivity. Qed.

Lemma parse_pairs_entry fuel k (s : list ascii) :
  opens_value s = true ->
  parse_pairs (S fuel) (encode_string k ++ chars ": " ++ s) =
  match parse_value fuel s with
  | Some (v, r3) =>
      match skip_ws r3 with
      | c3 :: r4 =>
          if Ascii.eqb c3 "}"%char then Some ([(k, v)], r4)
          else if Ascii.eqb c3 ","%char then
            match parse_pairs fuel (skip_ws r4) with
            | Some (kvs, r5) => Some ((k, v) :: kvs, r5)
            | None => None
            end
          else None
      | [] => None
      end
  | None => None
  end.
Proof.
  intros Hs. unfold encode_string. rewrite <- app_comm_cons, parse_pairs_eq.
  rewrite <- app_assoc. cbn [app chars list_ascii_of_string].
  rewrite scanstring_escaped.
  rewrite skip_ws_cons by reflexivity. cbn [Ascii.eqb Bool.eqb]. cbv iota.
  change (skip_ws (" "%char :: s)) with (skip_ws s).
  rewrite (skip_ws_opens_value s Hs).
  unfold chars. rewrite string_of_list_ascii_of_string. reflexivity.
Qed.

Lemma opens_value_join_entries level lv kv (d : list (string * pyval)) (s : list ascii) :
  opens_value (join (separator level) (map (encode_entry lv) (kv :: d)) ++ s) = true.
Proof.
  destruct d; cbn [map join]; unfold encode_entry; rewrite <- ?app_assoc;
    apply opens_value_encode_string.
Qed.

Lemma parse_pairs_join level (d : list (string * pyval)) :
  Forall (fun kv => reads_back kv.2) d -> d <> [] ->
  forall fuel rest,
    list_sum (map (fun kv => S (weight kv.2)) d) <= fuel ->
    parse_pairs fuel
      (join (separator (S level)) (map (encode_entry (S level)) d) ++
       newline_indent level ++ "}"%char :: rest) = Some (d, rest).
Proof.
  induction 1 as [ | [k x] d Hx Hd IH ]; [ congruence | intros _ fuel rest Hfuel ].
  cbn [map list_sum foldr snd] in Hfuel. cbn [snd] in Hx.
  destruct fuel as [ | fuel ]; [ lia | ].
  destruct d as [ | kv d ].
  - cbn [map join]. unfold encode_entry. cbn [fst snd]. rewrite <- !app_assoc.
    rewrite parse_pairs_entry by apply opens_value_encode.
    rewrite (Hx (S level) fuel); [ | cbn in Hfuel; lia | reflexivity ].
    rewrite skip_ws_newline_indent, skip_ws_cons by reflexivity.
    reflexivity.
  - cbn [map]. rewrite join_cons2. unfold encode_entry at 1. cbn [fst snd].
    rewrite <- !app_assoc.
    rewrite parse_pairs_entry by apply opens_value_encode.
    unfold separator at 1. rewrite <- app_comm_cons.
    rewrite (Hx (S level) fuel); [ | cbn in Hfuel; lia | reflexivity ].
    rewrite skip_ws_cons by reflexivity.
    cbn [Ascii.eqb Bool.eqb]. cbv iota.
    rewrite skip_ws_newline_indent.
    change (encode_entry (S level) kv :: map (encode_entry (S level)) d)
      with (map (encode_entry (S level)) (kv :: d)).
    rewrite skip_ws_opens_value by apply opens_value_join_entries.
    rewrite IH; [ reflexivity | discriminate | cbn in Hfuel |- *; lia ].
Qed.

(** Values. *)
Lemma parse_value_string fuel (r : list ascii) :
  parse_value (S fuel) (quote :: r) =
  match scanstring r with
  | Some (str, r') => Some (VStr (string_of_list_ascii str), r')
  | None => None
  end.
Proof. reflexivity. Qed.

Lemma parse_value_list fuel (s : list ascii) :
  opens_value (skip_ws s) = true ->
  parse_value (S fuel) ("["%char :: s) =
  match parse_items fuel (skip_ws s) with
  | Some (items, r) => Some (VList items, r)
  | None => None
  end.
Proof.
  intros H.
  change (parse_value (S fuel) ("["%char :: s)) with
    (match skip_ws s with
     | c' :: r' =>
         if Ascii.eqb c' "]"%char then Some (VList [], r')
         else match parse_items fuel (c' :: r') with
              | Some (items, r) => Some (VList items, r)
              | None => None
              end
     | [] => None
     end).
  destruct (skip_ws s) as [ | c r ]; [ discriminate | ].
  cbn in H. destruct (Ascii.eqb c "]"%char); [ | reflexivity ].
  rewrite andb_false_r in H. discriminate.
Qed.

Lemma parse_value_dict fuel (s : list ascii) :
  opens_value (skip_ws s) = true ->
  parse_value (S fuel) ("{"%char :: s) =
  match parse_pairs fuel (skip_ws s) with
  | Some (pairs, r) => Some (VDict (dict_of_pairs pairs), r)
  | None => None
  end.
Proof.
  intros H.
  change (parse_value (S fuel) ("{"%char :: s)) with
    (match skip_ws s with
     | c' :: r' =>
         if Ascii.eqb c' "}"%char then Some (VDict [], r')
         else match parse_pairs fuel (c' :: r') with
              | Some (pairs, r) => Some (VDict (dict_of_pairs pairs), r)
              | None => None
              end
     | [] => None
     end).
  destruct (skip_ws s) as [ | c r ]; [ discriminate | ].
  cbn in H. destruct (Ascii.eqb c "}"%char); [ | reflexivity ].
  rewrite andb_false_r in H. discriminate.
Qed.

Lemma encode_list_cons level x (xs : list pyval) :
  encode level (VList (x :: xs)) =
  "["%char :: newline_indent (S level) ++
  join (separator (S level)) (map (encode (S level)) (x :: xs)) ++
  newline_indent level ++ ["]"%char].
Proof. reflexivity. Qed.

Lemma encode_dict_cons level kv (d : list (string * pyval)) :
  encode level (VDict (kv :: d)) =
  "{"%char :: newline_indent (S level) ++
  join (separator (S level)) (map (encode_entry (S level)) (kv :: d)) ++
  newline_indent level ++ ["}"%char].
Proof. reflexivity. Qed.

Lemma encode_reads_back v : well_formed v = true -> reads_back v.
Proof.
  induction v as [ | b | z | s | l IH | d IH ] using pyval_ind;
    intros Hwf level fuel rest Hfuel Hrest;
    (destruct fuel as [ | fuel ]; [ cbn in Hfuel; lia | ]).
  - reflexivity.
  - destruct b; reflexivity.
  - apply parse_value_encode_int, Hrest.
  - cbn [encode]. unfold encode_string.
    rewrite <- app_comm_cons, parse_value_string, <- app_assoc.
    cbn [app]. rewrite scanstring_escaped.
    unfold chars. rewrite string_of_list_ascii_of_string. reflexivity.
  - assert (Forall reads_back l) as Hl.
    { cbn [well_formed] in Hwf. clear Hfuel.
      induction IH as [ | x xs Hx _ IHxs ]; constructor;
        cbn in Hwf; apply andb_true_iff in Hwf as [? ?]; auto. }
    destruct l as [ | x xs ]; [ reflexivity | ].
    rewrite encode_list_cons, <- app_comm_cons, <- !app_assoc.
    rewrite parse_value_list; rewrite skip_ws_newline_indent;
      rewrite skip_ws_opens_value by apply opens_value_join_encode;
      [ | apply opens_value_join_encode ].
    cbn [app]. rewrite (parse_items_join level (x :: xs) Hl); [ reflexivity | discriminate | ].
    cbn [weight] in Hfuel. lia.
  - cbn [well_formed] in Hwf. apply andb_true_iff in Hwf as [Hkeys Hwf].
    assert (Forall (fun kv => reads_back kv.2) d) as Hd.
    { clear Hfuel Hkeys.
      induction IH as [ | x xs Hx _ IHxs ]; constructor;
        cbn in Hwf; apply andb_true_iff in Hwf as [? ?]; auto. }
    destruct d as [ | kv d ]; [ reflexivity | ].
    rewrite encode_dict_cons, <- app_comm_cons, <- !app_assoc.
    rewrite parse_value_dict; rewrite skip_ws_newline_indent;
      rewrite skip_ws_opens_value by apply opens_value_join_entries;
      [ | apply opens_value_join_entries ].
    cbn [app]. rewrite (parse_pairs_join level (kv :: d) Hd); [ | discriminate | ].
    + rewrite dict_of_pairs_nodup by exact Hkeys. reflexivity.
    + cbn [weight] in Hfuel. lia.
Qed.

(** The text of a value is at least as long as the fuel it takes. *)
Lemma join_length sep (parts : list (list ascii)) :
  1 <= length sep ->
  list_sum (map (fun p => S (length p)) parts) <= S (length (join sep parts)).
Proof.
  intros Hsep. induction parts as [ | p ps IH ]; [ cbn; lia | ].
  destruct ps as [ | q ps ]; [ cbn; lia | ].
  rewrite join_cons2, !length_app.
  cbn [map list_sum foldr] in IH |- *. lia.
Qed.

Lemma uint_chars_length d : d <> Nil -> 1 <= length (uint_chars d).
Proof. destruct d; [ congruence | intros _; cbn; lia .. ]. Qed.

Lemma weight_le_length v : forall level, weight v <= length (encode level v).
Proof.
  induction v as [ | b | z | s | l IH | d IH ] using pyval_ind; intros level.
  - cbn. lia.
  - destruct b; cbn; lia.
  - destruct z as [ | p | p ]; cbn [weight encode encode_int length];
      try pose proof (uint_chars_length _ (DecimalPos.Unsigned.to_uint_nonnil p)); lia.
  - cbn. lia.
  - assert (list_sum (map (fun v => S (weight v)) l) <=
            list_sum (map (fun p => S (length p)) (map (encode (S level)) l))) as Hs.
    { induction IH as [ | y ys Hy _ IHys ]; [ reflexivity | ].
      unfold list_sum in *. cbn [map foldr]. specialize (Hy (S level)). lia. }
    destruct l as [ | x xs ]; [ cbn; lia | ].
    rewrite encode_list_cons. cbn [weight length]. rewrite !length_app.
    pose proof (join_length (separator (S level)) (map (encode (S level)) (x :: xs))) as Hj.
    cbn [separator length] in Hj |- *. lia.
  - assert (list_sum (map (fun kv => S (weight kv.2)) d) <=
            list_sum (map (fun p => S (length p)) (map (encode_entry (S level)) d))) as Hs.
    { induction IH as [ | y ys Hy _ IHys ]; [ reflexivity | ].
      unfold list_sum in *. cbn [map foldr]. specialize (Hy (S level)).
      unfold encode_entry at 1. rewrite !length_app. lia. }
    destruct d as [ | kv d ]; [ cbn; lia | ].
    rewrite encode_dict_cons. cbn [weight length]. rewrite !length_app.
    pose proof (join_length (separator (S level)) (map (encode_entry (S level)) (kv :: d))) as Hj.
    cbn [separator length] in Hj |- *. lia.
Qed.

(** [json.loads(json.dumps(v, indent=4)) == v]. *)
Lemma loads_dumps v : well_formed v = true -> loads (dumps v) = Some v.
Proof.
  intros Hwf. unfold loads, dumps, chars.
  rewrite list_ascii_of_string_of_list_ascii.
  pose proof (opens_value_encode 0 v []) as Hopen. rewrite app_nil_r in Hopen.
  rewrite (skip_ws_opens_value _ Hopen).
  pose proof (encode_reads_back v Hwf 0 (S (length (encode 0 v))) []) as Hread.
  rewrite app_nil_r in Hread.
  rewrite Hread; [ reflexivity | | reflexivity ].
  pose proof (weight_le_length v 0). lia.
Qed.

End JsonRoundTrip.

(** ** The uploader *)

Section Uploader.
Variables (token : pyval) (document_path : string) (index_name overwrite : pyval)
  (prefix_name : string) (e : env) (w : world).

(** The three ways through [eazyml_upload] that end before the remote
    call or without it. *)
Lemma upload_run_missing :
  files w !! document_path = None ->
  eazyml_upload token document_path index_name overwrite prefix_name e w =
  (Value VNone,
   World (files w)
     (stdout w ++ [[Lit "Document doesn't exist - "; Str (VStr document_path)]])
     (calls w)).
Proof.
  intros Hdoc. unfold eazyml_upload. py_unfold. py_simpl.
  py_step Hdoc. reflexivity.
Qed.

Lemma upload_run_cached text resp index :
  isSome (files w !! document_path) = true ->
  files w !! upload_cache prefix_name = Some text ->
  Json.loads text = Some resp ->
  getitem resp "indexed" = inr index ->
  eazyml_upload token document_path index_name overwrite prefix_name e w =
  (Value index,
   World (files w)
     (stdout w ++ [[Lit "Returning from cache"; Lit " ";
                    Str (VStr (upload_cache prefix_name))]])
     (calls w)).
Proof.
  intros Hdoc Hfile Hload Hindex. unfold upload_cache in *. unfold eazyml_upload. py_unfold. py_simpl.
  py_step Hdoc. py_step Hfile. py_step Hload. py_step Hindex. reflexivity.
Qed.

(** C7. A document path that does not exist: [eazyml_upload] returns [None]
    and makes no remote call (the calls made are the ones made before); it
    writes no file either. *)
Theorem upload_document_missing :
  files w !! document_path = None ->
  let r := eazyml_upload token document_path index_name overwrite prefix_name e w in
  r.1 = Value VNone /\ calls r.2 = calls w /\ files r.2 = files w.
Proof.
  intros Hdoc. cbv zeta. rewrite (upload_run_missing Hdoc). auto.
Qed.

(** C2, as amended.  The document exists and the upload cache file holds a
    JSON object with the key [indexed]: [eazyml_upload] returns that value
    and makes no remote call. *)
Theorem upload_cache_hit text resp index :
  isSome (files w !! document_path) = true ->
  files w !! upload_cache prefix_name = Some text ->
  Json.loads text = Some resp ->
  getitem resp "indexed" = inr index ->
  let r := eazyml_upload token document_path index_name overwrite prefix_name e w in
  r.1 = Value index /\ calls r.2 = calls w.
Proof.
  intros Hdoc Hfile Hload Hindex. cbv zeta.
  rewrite (upload_run_cached text resp index Hdoc Hfile Hload Hindex). auto.
Qed.

(** The cache-miss path: the service is asked once. *)
(** A refusal.  The message is printed and [index] is set to [False]; the
    lines after the [if] then read [resp["indexed"]] and the global [query]
    before [index] is returned. *)
Lemma upload_refused resp success message :
  isSome (files w !! document_path) = true ->
  files w !! upload_cache prefix_name = None ->
  ez e (calls w) (upload_request token document_path index_name overwrite) = resp ->
  getitem resp "success" = inr success ->
  is_True success = false ->
  getitem resp "message" = inr message ->
  let r := eazyml_upload token document_path index_name overwrite prefix_name e w in
  r.1 = match getitem resp "indexed", global_query e with
        | inl x, _ => Exception x
        | inr _, None => Exception (NameError "query")
        | inr _, Some _ => Value (VBool false)
        end /\
  files r.2 = files w /\
  calls r.2 = calls w ++ [upload_request token document_path index_name overwrite] /\
  [Lit "Upload document error: "; Str message] ∈ stdout r.2.
Proof.
  intros Hdoc Hfile Hresp Hsuccess Hrefused Hmessage.
  unfold upload_cache, upload_request in *. cbv zeta.
  unfold eazyml_upload. py_unfold. py_simpl.
  py_step Hdoc. py_step Hfile. py_step Hresp. py_step Hsuccess.
  py_step Hrefused. py_step Hmessage.
  destruct (getitem resp "indexed") as [x | indexed]; py_simpl.
  - repeat split; try reflexivity. set_solver.
  - destruct (global_query e); py_simpl; repeat split; try reflexivity; set_solver.
Qed.

(** An acceptance.  The response is written to the cache file; the value of
    [resp["indexed"]] is returned if the global [query] is bound. *)
Lemma upload_accepted resp success index :
  isSome (files w !! document_path) = true ->
  files w !! upload_cache prefix_name = None ->
  ez e (calls w) (upload_request token document_path index_name overwrite) = resp ->
  getitem resp "success" = inr success ->
  is_True success = true ->
  getitem resp "indexed" = inr index ->
  let r := eazyml_upload token document_path index_name overwrite prefix_name e w in
  r.1 = match global_query e with
        | Some _ => Value index
        | None => Exception (NameError "query")
        end /\
  files r.2 = <[upload_cache prefix_name := Json.dumps resp]> (files w) /\
  calls r.2 = calls w ++ [upload_request token document_path index_name overwrite].
Proof.
  intros Hdoc Hfile Hresp Hsuccess Haccepted Hindex.
  unfold upload_cache, upload_request in *. cbv zeta.
  unfold eazyml_upload. py_unfold. py_simpl.
  py_step Hdoc. py_step Hfile. py_step Hresp. py_step Hsuccess.
  py_step Haccepted. py_step Hindex.
  destruct (global_query e); py_simpl; repeat split; reflexivity.
Qed.

End Uploader.

(** C1.  The document exists, there is no cache file and the service answers
    [{success: False, message: "refused"}]: [eazyml_upload] prints the
    message and then raises [KeyError('indexed')]; it does not return. *)
Theorem upload_refused_raises :
  eazyml_upload (VStr "tok") "doc.pdf" (VStr "idx") (VStr "no") "EazyML"
    (as_script refusing) with_document =
  (Exception (KeyError "indexed"),
   World (files with_document)
     [ [Lit "Indexing the document ..."];
       [Str (VDict [("success", VBool false); ("message", VStr "refused")])];
       [Lit "Upload document error: "; Str (VStr "refused")];
       [Lit "Indexing document time: "; Secs; Lit " secs"] ]
     [ ez_upload_document (VStr "tok") "doc.pdf" (VStr "idx")
         (VDict [("overwrite", VStr "no")]) ]).
Proof. vm_compute. reflexivity. Qed.

(** C2, as stated, fails: with a cache file in place and no document,
    [eazyml_upload] returns [None], not the cached value. *)
Lemma upload_cache_hit_needs_document :
  ~ (forall token document_path index_name overwrite prefix_name e w text resp index,
       files w !! upload_cache prefix_name = Some text ->
       Json.loads text = Some resp ->
       getitem resp "indexed" = inr index ->
       (eazyml_upload token document_path index_name overwrite prefix_name e w).1
       = Value index).
Proof.
  intros H.
  specialize (H (VStr "tok") "doc.pdf" (VStr "idx") (VStr "no") "EazyML"
                (as_script accepting) with_upload_cache cached_upload
                (VDict [("success", VBool true); ("indexed", VBool true)])
                (VBool true)).
  vm_compute in H. specialize (H eq_refl eq_refl eq_refl). discriminate H.
Qed.

Lemma upload_document_missing_example :
  files no_files !! "doc.pdf" = None /\
  let r := eazyml_upload (VStr "tok") "doc.pdf" (VStr "idx") (VStr "no") "EazyML"
             (as_script accepting) no_files in
  r.1 = Value VNone /\ calls r.2 = calls no_files /\ files r.2 = files no_files.
Proof.
  split; [ reflexivity | ].
  apply (upload_document_missing (VStr "tok") "doc.pdf" (VStr "idx") (VStr "no")
           "EazyML" (as_script accepting) no_files).
  reflexivity.
Defined.

(** ** The extractor *)

Section Extractor.
Variables (token api_name query index_name : pyval) (prefix_name : string)
  (e : env) (w : world).

(** C3. No cache file and a refusal, a response whose [success] is not
    [True] and which carries a [message]: [eazyml_extract_information]
    prints the message and returns [(None, None)]; the files are the ones it
    started with. *)
Theorem extract_refused resp success message :
  eq_str api_name "extract_information" = true ->
  files w !! extract_cache prefix_name = None ->
  ez e (calls w) (extract_request token query index_name) = resp ->
  getitem resp "success" = inr success ->
  is_True success = false ->
  getitem resp "message" = inr message ->
  eazyml_extract_information token api_name query index_name prefix_name e w =
  (Value (VNone, VNone),
   World (files w)
     (stdout w ++ [ [Lit "Extracting Information "];
                    [Lit "Information Extraction error: "; Str message] ])
     (calls w ++ [extract_request token query index_name])).
Proof.
  intros Hapi Hfile Hresp Hsuccess Hrefused Hmessage.
  unfold extract_cache, extract_request in *.
  unfold eazyml_extract_information. py_unfold. py_simpl.
  py_step Hapi. py_step Hfile. py_step Hresp. py_step Hsuccess.
  py_step Hrefused. py_step Hmessage.
  rewrite <- app_assoc. reflexivity.
Qed.

(** An acceptance: the response is written to the cache file, then
    [resp["answer"]] is read. *)
Lemma extract_accepted resp success :
  eq_str api_name "extract_information" = true ->
  files w !! extract_cache prefix_name = None ->
  ez e (calls w) (extract_request token query index_name) = resp ->
  getitem resp "success" = inr success ->
  is_True success = true ->
  let r := eazyml_extract_information token api_name query index_name prefix_name e w in
  r.1 = match getitem resp "answer" with
        | inr answer => Value (answer, resp)
        | inl x => Exception x
        end /\
  files r.2 = <[extract_cache prefix_name := Json.dumps resp]> (files w) /\
  calls r.2 = calls w ++ [extract_request token query index_name].
Proof.
  intros Hapi Hfile Hresp Hsuccess Haccepted.
  unfold extract_cache, extract_request in *. cbv zeta.
  unfold eazyml_extract_information. py_unfold. py_simpl.
  py_step Hapi. py_step Hfile. py_step Hresp. py_step Hsuccess.
  py_step Haccepted.
  destruct (getitem resp "answer"); py_simpl; repeat split; reflexivity.
Qed.


(** C9. The cache branch.  With the cached object [resp] read from the
    cache file, [eazyml_extract_information] returns a value only if [resp]
    is a dict with the key [answer], and the value is then
    [(resp["answer"], resp)]; for a dict without the key the [return]
    reads the unbound local [answer] and raises.  No remote call is made. *)
Theorem extract_cache_hit text resp :
  eq_str api_name "extract_information" = true ->
  files w !! extract_cache prefix_name = Some text ->
  Json.loads text = Some resp ->
  let r := eazyml_extract_information token api_name query index_name prefix_name e w in
  (forall v, r.1 = Value v ->
     exists d answer,
       resp = VDict d /\ dict_get "answer" d = Some answer /\ v = (answer, resp)) /\
  (forall d answer,
     resp = VDict d -> dict_get "answer" d = Some answer ->
     r.1 = Value (answer, resp)) /\
  (forall d,
     resp = VDict d -> dict_get "answer" d = None ->
     r.1 = Exception (UnboundLocalError "answer")) /\
  calls r.2 = calls w.
Proof.
  intros Hapi Hfile Hload.
  unfold extract_cache in *. cbv zeta.
  unfold eazyml_extract_information. py_unfold. py_simpl.
  py_step Hapi. py_step Hfile. py_step Hload.
  destruct resp as [ | b | z | s | l | d ]; cbn [contains getitem]; py_simpl.
  1-3: repeat split; (discriminate || reflexivity).
  - destruct (substring_of "answer" s); py_simpl;
      repeat split; (discriminate || reflexivity).
  - destruct (existsb (fun x => eq_str x "answer") l); py_simpl;
      repeat split; (discriminate || reflexivity).
  - destruct (dict_get "answer" d) as [answer | ] eqn:Hanswer; py_simpl.
    + repeat split; try reflexivity.
      * intros v [= <-]. exists d, answer. auto.
      * intros d' answer' [= <-] Hanswer'. congruence.
      * intros d' [= <-] Hnone. congruence.
    + repeat split; try reflexivity.
      * discriminate.
      * intros d' answer' [= <-] Hanswer'. congruence.
Qed.

(** Any other [api_name]: nothing is bound, the [return] raises. *)
Lemma extract_other_api :
  eq_str api_name "extract_information" = false ->
  eazyml_extract_information token api_name query index_name prefix_name e w =
  (Exception (UnboundLocalError "answer"), w).
Proof.
  intros Hapi. unfold eazyml_extract_information. py_unfold. py_simpl.
  py_step Hapi. reflexivity.
Qed.

End Extractor.

(** ** The authenticator *)

Section Authenticator.
Variables (username api_key password store_info : pyval) (e : env) (w : world).

(** C5. The service accepts and the response carries a token:
    [eazyml_auth] returns that token; if [store_info] is set the auth file
    holds the credentials, and reads back as them; if it is not, no file is
    written. *)
Theorem auth_accepted resp success token :
  ez e (calls w) (auth_request username api_key password) = resp ->
  getitem resp "success" = inr success ->
  is_True success = true ->
  getitem resp "token" = inr token ->
  let r := eazyml_auth username api_key password store_info e w in
  r.1 = Value token /\
  files r.2 =
    (if truthy store_info
     then <[AUTH_FILE := Json.dumps (credentials username api_key password)]> (files w)
     else files w) /\
  (well_formed (credentials username api_key password) = true ->
   Json.loads (Json.dumps (credentials username api_key password))
   = Some (credentials username api_key password)).
Proof.
  intros Hresp Hsuccess Haccepted Htoken.
  unfold auth_request, credentials in *. cbv zeta.
  unfold eazyml_auth. py_unfold. py_simpl.
  split; [ | split; [ | apply loads_dumps ] ];
    destruct (is_not_None password); py_simpl;
    py_step Hresp; py_step Hsuccess; py_step Haccepted;
    destruct (truthy store_info); py_simpl; py_step Htoken; reflexivity.
Qed.

(** A refusal: the message is printed, [None] is returned, no file is
    written. *)
Lemma auth_refused resp success message :
  ez e (calls w) (auth_request username api_key password) = resp ->
  getitem resp "success" = inr success ->
  is_True success = false ->
  getitem resp "message" = inr message ->
  eazyml_auth username api_key password store_info e w =
  (Value VNone,
   World (files w)
     (stdout w ++ [[Lit "Authentication error: "; Str message]])
     (calls w ++ [auth_request username api_key password])).
Proof.
  intros Hresp Hsuccess Hrefused Hmessage.
  unfold auth_request in *.
  unfold eazyml_auth. py_unfold. py_simpl.
  destruct (is_not_None password); py_simpl;
    py_step Hresp; py_step Hsuccess; py_step Hrefused; py_step Hmessage;
    reflexivity.
Qed.

End Authenticator.

(** ** The persisted files *)



Section Persisted.
Variables (e : env) (w : world).
Variables (token : pyval) (document_path : string) (index_name overwrite : pyval)
  (prefix_name : string) (api_name query : pyval)
  (username api_key password store_info : pyval).


End Persisted.


(** ** Writing a cache file, then reading it *)

Section RoundTrip.
Variable resp : pyval.
Hypothesis resp_well_formed : well_formed resp = true.


End RoundTrip.

(** ** The flow *)

Section Flow.
Variables (username api_key config_file : pyval) (prefix_name : string)
  (overwrite : pyval) (e : env) (w : world).

(** After its first two blocks, [flow] is its last two. *)
Lemma flow_after_prelude document_path index_name api_name query token w1 :
  flow_prelude username api_key config_file e w = (Normal token, w1) ->
  flow username api_key config_file prefix_name document_path index_name overwrite
    api_name query e w =
  def (bind (flow_upload_document token prefix_name document_path index_name overwrite)
         (fun _ => bind (flow_extract_information token prefix_name index_name api_name query)
                     (fun _ => return_ VNone))) e w1.
Proof.
  unfold flow, flow_prelude, def, bind, ret. intros H.
  destruct (flow_get_token username api_key e w) as [[token' | r | x] w'];
    try discriminate H.
  destruct (flow_set_config token' config_file e w') as [[[] | r | x] w''];
    try discriminate H.
  injection H as -> ->. reflexivity.
Qed.

(** A refused authentication does not end [flow]: the first block ends
    normally, with the token [None]. *)
Lemma flow_get_token_refused w1 :
  truthy username && truthy api_key = true ->
  eazyml_auth username api_key VNone (VBool true) e w = (Value VNone, w1) ->
  flow_get_token username api_key e w = (Normal VNone, w1).
Proof.
  intros Hcred Hauth. unfold flow_get_token, call_fn.
  rewrite Hcred, Hauth. reflexivity.
Qed.

(** A false result of [eazyml_upload] ends [flow]: no extraction follows. *)
Lemma flow_stops_after_upload document_path index_name api_name query token w1 index w2 :
  flow_prelude username api_key config_file e w = (Normal token, w1) ->
  truthy (VStr document_path) = true ->
  truthy index_name = true ->
  eazyml_upload token document_path index_name overwrite prefix_name e w1
  = (Value index, w2) ->
  truthy index = false ->
  flow username api_key config_file prefix_name (Some document_path) index_name
    overwrite api_name query e w = (Value VNone, w2).
Proof.
  intros Hpre Hdoc Hindex_name Hupload Hindex.
  rewrite (flow_after_prelude _ _ _ _ _ _ Hpre).
  unfold flow_upload_document. py_unfold. py_simpl.
  cbn [of_arg from_option id]. py_step Hdoc. py_step Hindex_name.
  py_step Hupload. py_step Hindex.
  reflexivity.
Qed.

(** Without a cache file the extractor asks the service, whatever the
    answer is. *)
Lemma extract_calls_service token api_name query index_name w1 :
  eq_str api_name "extract_information" = true ->
  files w1 !! extract_cache prefix_name = None ->
  calls (eazyml_extract_information token api_name query index_name prefix_name e w1).2
  = calls w1 ++ [extract_request token query index_name].
Proof.
  intros Hapi Hfile. unfold extract_cache, extract_request in *.
  unfold eazyml_extract_information. py_unfold. py_simpl.
  py_step Hapi. py_step Hfile.
  destruct (getitem _ "success") as [x | success]; py_simpl; [ reflexivity | ].
  destruct (is_True success); py_simpl.
  - destruct (getitem _ "answer"); reflexivity.
  - destruct (getitem _ "message"); reflexivity.
Qed.

(** C10. Extraction requested with a query and [index_name] [None], no
    document to upload: [flow] prints the prompt for the index name and
    goes on to call [eazyml_extract_information] with [index_name] [None];
    where that function asks the service, the call carries [None] as index.
    With no query, and with a document and no index name, [flow] prints its
    prompt and returns: no call is added to those of the first two
    blocks. *)
Theorem flow_extract_without_index document_path api_name query token w1 :
  flow_prelude username api_key config_file e w = (Normal token, w1) ->
  truthy (of_arg document_path) = false ->
  truthy api_name = true ->
  truthy query = true ->
  let asked :=
    World (files w1)
      (stdout w1 ++ [[Lit "Please provide index_name that was mentioned while";
                      Lit " uploading document"]])
      (calls w1) in
  let x := eazyml_extract_information token api_name query VNone prefix_name e asked in
  let r := flow username api_key config_file prefix_name document_path VNone
             overwrite api_name query e w in
  r.2 = x.2 /\
  r.1 = match x.1 with
        | Value _ => Value VNone
        | Exception err => Exception err
        end /\
  (eq_str api_name "extract_information" = true ->
   files w1 !! extract_cache prefix_name = None ->
   calls r.2 = calls w1 ++ [extract_request token query VNone]) /\
  (forall index_name query',
     truthy query' = false ->
     flow username api_key config_file prefix_name document_path index_name
       overwrite api_name query' e w =
     (Value VNone,
      World (files w1)
        (stdout w1 ++ [[Lit "Please provide query to be asked in double quotes"]])
        (calls w1))) /\
  (forall document_path' index_name api_name' query',
     truthy (of_arg document_path') = true ->
     truthy index_name = false ->
     flow username api_key config_file prefix_name document_path' index_name
       overwrite api_name' query' e w =
     (Value VNone,
      World (files w1) (stdout w1 ++ [[Lit "Please provide the index name"]])
        (calls w1))).
Proof.
  intros Hpre Hdoc Hapi Hquery asked x r.
  assert (r = (match x.1 with
               | Value _ => Value VNone
               | Exception err => Exception err
               end, x.2)) as Hr.
  { subst r x asked. rewrite (flow_after_prelude _ _ _ _ _ _ Hpre).
    unfold flow_upload_document, flow_extract_information. py_unfold. py_simpl.
    py_step Hdoc. py_step Hapi. py_step Hquery. cbn [truthy negb].
    destruct (eazyml_extract_information _ _ _ _ _ _ _) as [[v | err] w2];
      reflexivity. }
  split; [ rewrite Hr; reflexivity | ].
  split; [ rewrite Hr; reflexivity | ].
  split; [ | split ].
  - intros Heq Hfile. rewrite Hr. cbn [snd]. subst x.
    rewrite extract_calls_service by assumption. reflexivity.
  - intros index_name query' Hquery'.
    rewrite (flow_after_prelude _ _ _ _ _ _ Hpre).
    unfold flow_upload_document, flow_extract_information. py_unfold. py_simpl.
    py_step Hdoc. py_step Hapi. py_step Hquery'. reflexivity.
  - intros document_path' index_name api_name' query' Hdoc' Hindex.
    rewrite (flow_after_prelude _ _ _ _ _ _ Hpre).
    unfold flow_upload_document. py_unfold. py_simpl.
    py_step Hdoc'. py_step Hindex. reflexivity.
Qed.

End Flow.

(** C4.  The service refuses the credentials: [eazyml_auth] returns [None],
    and [flow] goes on: it uploads the document and extracts, with the
    token [None]. *)
Theorem flow_continues_after_refused_auth :
  let r := flow (VStr "user") (VStr "key") VNone "EazyML" (Some "doc.pdf")
             (VStr "idx") (VStr "no") (VStr "extract_information")
             (VStr "what is the total?") (as_script refusing_auth) with_document in
  eazyml_auth (VStr "user") (VStr "key") VNone (VBool true)
    (as_script refusing_auth) with_document
  = (Value VNone,
     World (files with_document)
       [[Lit "Authentication error: "; Str (VStr "refused")]]
       [ez_auth (VStr "user") None (Some (VStr "key"))]) /\
  r.1 = Value VNone /\
  calls r.2 =
    [ ez_auth (VStr "user") None (Some (VStr "key"));
      ez_upload_document VNone "doc.pdf" (VStr "idx") (VDict [("overwrite", VStr "no")]);
      ez_extract_information VNone (VStr "what is the total?") (VStr "idx") (VDict []) ].
Proof. vm_compute. repeat split; reflexivity. Qed.

(** ** Examples of the statements above *)

Lemma upload_cache_hit_example :
  let r := eazyml_upload (VStr "tok") "doc.pdf" (VStr "idx") (VStr "no") "EazyML"
             (as_script refusing) with_document_and_cache in
  r.1 = Value (VBool true) /\ calls r.2 = calls with_document_and_cache.
Proof.
  apply (upload_cache_hit (VStr "tok") "doc.pdf" (VStr "idx") (VStr "no") "EazyML"
           (as_script refusing) with_document_and_cache cached_upload
           (VDict [("success", VBool true); ("indexed", VBool true)]) (VBool true));
    vm_compute; reflexivity.
Defined.

Lemma extract_refused_example :
  eazyml_extract_information (VStr "tok") (VStr "extract_information")
    (VStr "what is the total?") (VStr "idx") "EazyML" (as_script refusing) no_files =
  (Value (VNone, VNone),
   World (files no_files)
     (stdout no_files ++ [ [Lit "Extracting Information "];
                           [Lit "Information Extraction error: "; Str (VStr "refused")] ])
     (calls no_files ++
      [extract_request (VStr "tok") (VStr "what is the total?") (VStr "idx")])).
Proof.
  apply (extract_refused (VStr "tok") (VStr "extract_information")
           (VStr "what is the total?") (VStr "idx") "EazyML" (as_script refusing)
           no_files (VDict [("success", VBool false); ("message", VStr "refused")])
           (VBool false) (VStr "refused"));
    reflexivity.
Defined.

Lemma extract_cache_hit_example :
  let r := eazyml_extract_information (VStr "tok") (VStr "extract_information")
             (VStr "what is the total?") (VStr "idx") "EazyML" (as_script refusing)
             with_extract_cache in
  r.1 = Value (VStr "42", cached_answer) /\ calls r.2 = calls with_extract_cache.
Proof.
  destruct (extract_cache_hit (VStr "tok") (VStr "extract_information")
              (VStr "what is the total?") (VStr "idx") "EazyML" (as_script refusing)
              with_extract_cache (Json.dumps cached_answer) cached_answer)
    as (_ & Hhit & _ & Hcalls); [ reflexivity | reflexivity | vm_compute; reflexivity | ].
  split; [ | exact Hcalls ].
  apply (Hhit [("success", VBool true); ("answer", VStr "42")] (VStr "42"));
    reflexivity.
Defined.

Lemma auth_accepted_example :
  let r := eazyml_auth (VStr "user") (VStr "key") VNone (VBool true)
             (as_script accepting) no_files in
  r.1 = Value (VStr "tok") /\
  files r.2 =
    <[AUTH_FILE := Json.dumps (credentials (VStr "user") (VStr "key") VNone)]>
      (files no_files) /\
  Json.loads (Json.dumps (credentials (VStr "user") (VStr "key") VNone))
  = Some (credentials (VStr "user") (VStr "key") VNone).
Proof.
  destruct (auth_accepted (VStr "user") (VStr "key") VNone (VBool true)
              (as_script accepting) no_files
              (VDict [("success", VBool true); ("token", VStr "tok")])
              (VBool true) (VStr "tok") eq_refl eq_refl eq_refl eq_refl)
    as (Hvalue & Hfiles & Hread).
  split; [ exact Hvalue | split; [ exact Hfiles | apply Hread; reflexivity ] ].
Defined.



Lemma flow_extract_without_index_example :
  let w1 := (flow_prelude (VStr "user") (VStr "key") VNone
               (as_script accepting) no_files).2 in
  let r := flow (VStr "user") (VStr "key") VNone "EazyML" None VNone (VStr "no")
             (VStr "extract_information") (VStr "what is the total?")
             (as_script accepting) no_files in
  calls r.2 =
    calls w1 ++ [extract_request (VStr "tok") (VStr "what is the total?") VNone] /\
  [Lit "Please provide index_name that was mentioned while";
   Lit " uploading document"] ∈ stdout r.2.
Proof.
  intros w1 r.
  destruct (flow_extract_without_index (VStr "user") (VStr "key") VNone "EazyML"
              (VStr "no") (as_script accepting) no_files None
              (VStr "extract_information") (VStr "what is the total?")
              (VStr "tok") w1)
    as (_ & _ & Hcalls & _); try (vm_compute; reflexivity).
  split; [ apply Hcalls; vm_compute; reflexivity | ].
  vm_compute. set_solver.
Defined.

(** * More on the script

    What the functions do on the paths the statements above leave out, what
    they never do, and how the entry block uses them. *)

(** Every way through a statement: a case for each test and each lookup. *)
Ltac py_case :=
  match goal with
  | |- context [files ?w !! ?p] => destruct (files w !! p) eqn:?
  | |- context [Json.loads ?t] => destruct (Json.loads t) eqn:?
  | |- context [getitem ?v ?k] => destruct (getitem v k) eqn:?
  | |- context [contains ?k ?v] => destruct (contains k v) eqn:?
  | |- context [is_True ?v] => destruct (is_True v) eqn:?
  | |- context [is_not_None ?v] => destruct (is_not_None v) eqn:?
  | |- context [eq_str ?v ?s] => destruct (eq_str v s) eqn:?
  | |- context [truthy ?v] => destruct (truthy v) eqn:?
  | |- context [global_query ?e] => destruct (global_query e) eqn:?
  | |- context [if ?b then _ else _] => is_var b; destruct b
  end.

Ltac py_cases := py_simpl; repeat (py_case; py_simpl).

(** ** More on the uploader *)

Section UploaderPaths.
Variables (token : pyval) (document_path : string) (index_name overwrite : pyval)
  (prefix_name : string) (e : env) (w : world).

(** X1. An accepted upload in a run of the script, where the global [query]
    is bound: [eazyml_upload] returns [resp["indexed"]], the cache file is
    the response, the service was asked once, and the line with the next
    command shows the global [query] and the index name. *)
Theorem upload_accepted_in_script resp success index q :
  isSome (files w !! document_path) = true ->
  files w !! upload_cache prefix_name = None ->
  ez e (calls w) (upload_request token document_path index_name overwrite) = resp ->
  getitem resp "success" = inr success ->
  is_True success = true ->
  getitem resp "indexed" = inr index ->
  global_query e = Some q ->
  let r := eazyml_upload token document_path index_name overwrite prefix_name e w in
  r.1 = Value index /\
  files r.2 = <[upload_cache prefix_name := Json.dumps resp]> (files w) /\
  calls r.2 = calls w ++ [upload_request token document_path index_name overwrite] /\
  [Lit "    python eazyml_upload_extract_information.py ";
   Lit "--query "; Str q; Lit " --index_name "; Str index_name;
   Lit " --extract_information"] ∈ stdout r.2.
Proof.
  intros Hdoc Hfile Hresp Hsuccess Haccepted Hindex Hq.
  unfold upload_cache, upload_request in *. cbv zeta.
  unfold eazyml_upload. py_unfold. py_simpl.
  py_step Hdoc. py_step Hfile. py_step Hresp. py_step Hsuccess.
  py_step Haccepted. py_step Hindex. py_step Hq.
  repeat split; try reflexivity. set_solver.
Qed.

(** X2. The same upload from a module that imports the function, where
    the global [query] is not bound: the response is written to the cache
    file, and [eazyml_upload] then raises [NameError] instead of
    returning. *)
Theorem upload_accepted_in_module resp success index :
  isSome (files w !! document_path) = true ->
  files w !! upload_cache prefix_name = None ->
  ez e (calls w) (upload_request token document_path index_name overwrite) = resp ->
  getitem resp "success" = inr success ->
  is_True success = true ->
  getitem resp "indexed" = inr index ->
  global_query e = None ->
  let r := eazyml_upload token document_path index_name overwrite prefix_name e w in
  r.1 = Exception (NameError "query") /\
  files r.2 = <[upload_cache prefix_name := Json.dumps resp]> (files w) /\
  calls r.2 = calls w ++ [upload_request token document_path index_name overwrite].
Proof.
  intros Hdoc Hfile Hresp Hsuccess Haccepted Hindex Hq. cbv zeta.
  destruct (upload_accepted token document_path index_name overwrite prefix_name
              e w resp success index Hdoc Hfile Hresp Hsuccess Haccepted Hindex)
    as (Hr & Hfiles & Hcalls).
  rewrite Hq in Hr. auto.
Qed.

(** X3. A refusal that carries the key [indexed], in a run of the script:
    [eazyml_upload] prints the message of the service and returns [False];
    no file is written. *)
Theorem upload_refused_with_indexed resp success message indexed q :
  isSome (files w !! document_path) = true ->
  files w !! upload_cache prefix_name = None ->
  ez e (calls w) (upload_request token document_path index_name overwrite) = resp ->
  getitem resp "success" = inr success ->
  is_True success = false ->
  getitem resp "message" = inr message ->
  getitem resp "indexed" = inr indexed ->
  global_query e = Some q ->
  let r := eazyml_upload token document_path index_name overwrite prefix_name e w in
  r.1 = Value (VBool false) /\
  files r.2 = files w /\
  [Lit "Upload document error: "; Str message] ∈ stdout r.2.
Proof.
  intros Hdoc Hfile Hresp Hsuccess Hrefused Hmessage Hindexed Hq. cbv zeta.
  destruct (upload_refused token document_path index_name overwrite prefix_name
              e w resp success message Hdoc Hfile Hresp Hsuccess Hrefused Hmessage)
    as (Hr & Hfiles & _ & Hline).
  rewrite Hindexed, Hq in Hr. auto.
Qed.


End UploaderPaths.

(** ** What the functions never do *)

Lemma getitem_exn v k x : getitem v k = inl x -> x = KeyError k \/ x = TypeError.
Proof.
  destruct v as [ | | | | | d ]; cbn; try (intros [= <-]; auto).
  destruct (dict_get k d); [ discriminate | intros [= <-]; auto ].
Qed.

Lemma contains_exn k v x : contains k v = inl x -> x = TypeError.
Proof. destruct v; cbn; intros [= <-] || discriminate; reflexivity. Qed.

(** The exception in the goal came from a lookup, a test or a decoder. *)
Ltac py_exn :=
  intros;
  try congruence;
  match goal with
  | H : getitem _ _ = inl ?x |- Exception ?x <> _ =>
      destruct (getitem_exn _ _ _ H); congruence
  | H : contains _ _ = inl ?x |- Exception ?x <> _ =>
      pose proof (contains_exn _ _ _ H); congruence
  end.

(** The lines in the goal were added to the ones printed before. *)
Ltac py_printed :=
  rewrite <- ?app_assoc; cbn [app];
  first [ exists []; split; [ symmetry; apply app_nil_r | ]
        | eexists; split; [ reflexivity | ] ].

(** None of the lines listed in [H] is the given one. *)
Ltac py_no_line H :=
  repeat (apply elem_of_cons in H as [H | H]; [ try discriminate H | ]);
  try (apply elem_of_nil in H; destruct H).

Section Effects.
Variables (e : env) (w : world).

Lemma upload_files token document_path index_name overwrite prefix_name :
  let r := eazyml_upload token document_path index_name overwrite prefix_name e w in
  let request := upload_request token document_path index_name overwrite in
  files r.2 = files w \/
  files r.2 = <[upload_cache prefix_name := Json.dumps (ez e (calls w) request)]> (files w).
Proof.
  unfold upload_cache, upload_request. cbv zeta.
  unfold eazyml_upload. py_unfold. py_cases; auto.
Qed.

Lemma upload_calls token document_path index_name overwrite prefix_name :
  let r := eazyml_upload token document_path index_name overwrite prefix_name e w in
  calls r.2 = calls w \/
  calls r.2 = calls w ++ [upload_request token document_path index_name overwrite].
Proof.
  unfold upload_request. cbv zeta.
  unfold eazyml_upload. py_unfold. py_cases; auto.
Qed.

Lemma upload_stdout token document_path index_name overwrite prefix_name :
  let r := eazyml_upload token document_path index_name overwrite prefix_name e w in
  exists new, stdout r.2 = stdout w ++ new /\
    (files w !! upload_cache prefix_name = None ->
     forall path, cache_line path ∉ new).
Proof.
  unfold upload_cache, cache_line. cbv zeta.
  unfold eazyml_upload. py_unfold. py_cases; py_printed;
    intros Hnone path Hin; try congruence; py_no_line Hin.
Qed.

Lemma upload_no_name_error token document_path index_name overwrite prefix_name q name :
  global_query e = Some q ->
  (eazyml_upload token document_path index_name overwrite prefix_name e w).1
  <> Exception (NameError name).
Proof.
  intros Hq. unfold eazyml_upload. py_unfold. py_simpl. rewrite Hq.
  py_cases; py_exn.
Qed.

Lemma extract_files token api_name query index_name prefix_name :
  let r := eazyml_extract_information token api_name query index_name prefix_name e w in
  let request := extract_request token query index_name in
  files r.2 = files w \/
  files r.2 = <[extract_cache prefix_name := Json.dumps (ez e (calls w) request)]> (files w).
Proof.
  unfold extract_cache, extract_request. cbv zeta.
  unfold eazyml_extract_information. py_unfold. py_cases; auto.
Qed.

Lemma extract_calls token api_name query index_name prefix_name :
  let r := eazyml_extract_information token api_name query index_name prefix_name e w in
  calls r.2 = calls w \/
  calls r.2 = calls w ++ [extract_request token query index_name].
Proof.
  unfold extract_request. cbv zeta.
  unfold eazyml_extract_information. py_unfold. py_cases; auto.
Qed.

Lemma extract_stdout token api_name query index_name prefix_name :
  let r := eazyml_extract_information token api_name query index_name prefix_name e w in
  exists new, stdout r.2 = stdout w ++ new /\
    (files w !! extract_cache prefix_name = None ->
     forall path, cache_line path ∉ new).
Proof.
  unfold extract_cache, cache_line. cbv zeta.
  unfold eazyml_extract_information. py_unfold. py_cases; py_printed;
    intros Hnone path Hin; try congruence; py_no_line Hin.
Qed.

Lemma extract_no_name_error token api_name query index_name prefix_name name :
  (eazyml_extract_information token api_name query index_name prefix_name e w).1
  <> Exception (NameError name).
Proof.
  unfold eazyml_extract_information. py_unfold. py_cases; py_exn.
Qed.

Lemma auth_files username api_key password store_info :
  let r := eazyml_auth username api_key password store_info e w in
  files r.2 = files w \/
  (truthy store_info = true /\
   files r.2 =
     <[AUTH_FILE := Json.dumps (credentials username api_key password)]> (files w)).
Proof.
  unfold credentials. cbv zeta.
  unfold eazyml_auth. py_unfold. py_cases; auto.
Qed.

Lemma auth_calls username api_key password store_info :
  calls (eazyml_auth username api_key password store_info e w).2
  = calls w ++ [auth_request username api_key password].
Proof.
  unfold auth_request.
  unfold eazyml_auth. py_unfold. py_cases; auto.
Qed.

Lemma auth_stdout username api_key password store_info :
  let r := eazyml_auth username api_key password store_info e w in
  exists new, stdout r.2 = stdout w ++ new /\ forall path, cache_line path ∉ new.
Proof.
  unfold cache_line. cbv zeta.
  unfold eazyml_auth. py_unfold. py_cases; py_printed;
    intros path Hin; py_no_line Hin.
Qed.

Lemma auth_no_name_error username api_key password store_info name :
  (eazyml_auth username api_key password store_info e w).1
  <> Exception (NameError name).
Proof.
  unfold eazyml_auth. py_unfold. py_cases; py_exn.
Qed.

End Effects.

(** ** What the flow never does *)

Lemma extends_refl w changed : extends w w changed.
Proof. split; [ reflexivity | reflexivity ]. Qed.

Lemma extends_trans w1 w2 w3 changed changed' :
  extends w1 w2 changed -> extends w2 w3 changed' ->
  extends w1 w3 (changed ++ changed').
Proof.
  intros [Hf1 Hc1] [Hf2 Hc2]. split.
  - intros path Hpath. rewrite elem_of_app in Hpath.
    rewrite Hf2, Hf1; [ reflexivity | | ]; intros H; apply Hpath; auto.
  - etransitivity; eassumption.
Qed.

Lemma extends_weaken w w' changed changed' :
  changed ⊆ changed' -> extends w w' changed -> extends w w' changed'.
Proof.
  intros Hsub [Hf Hc]. split; [ | exact Hc ].
  intros path Hpath. apply Hf. intros H. apply Hpath, Hsub, H.
Qed.

Lemma quiet_refl w : quiet w w.
Proof. exists []. split; [ symmetry; apply app_nil_r | intros path H; inversion H ]. Qed.

Lemma quiet_trans w1 w2 w3 : quiet w1 w2 -> quiet w2 w3 -> quiet w1 w3.
Proof.
  intros (n1 & H1 & Hn1) (n2 & H2 & Hn2). exists (n1 ++ n2). split.
  - rewrite H2, H1, app_assoc. reflexivity.
  - intros path Hin. apply elem_of_app in Hin as [Hin | Hin];
      [ apply (Hn1 path Hin) | apply (Hn2 path Hin) ].
Qed.

Lemma extends_of_files (w w' : world) path text :
  (files w' = files w \/ files w' = <[path := text]> (files w)) ->
  (calls w' = calls w \/ exists c, calls w' = calls w ++ [c]) ->
  extends w w' [path].
Proof.
  intros Hf Hc. split.
  - intros path' Hpath. rewrite list_elem_of_singleton in Hpath.
    destruct Hf as [-> | ->]; [ reflexivity | ].
    apply lookup_insert_ne. congruence.
  - destruct Hc as [-> | [c ->]]; [ reflexivity | apply prefix_app_r; reflexivity ].
Qed.

(** The three files have three names. *)
Lemma string_length_app (a b : string) :
  String.length (a +:+ b) = String.length a + String.length b.
Proof.
  induction a as [ | c a IH ]; [ reflexivity | ].
  change (S (String.length (a +:+ b)) = S (String.length a + String.length b)).
  rewrite IH. reflexivity.
Qed.

Lemma string_app_inj (p a b : string) : p +:+ a = p +:+ b -> a = b.
Proof.
  induction p as [ | c p IH ]; [ auto | ].
  change (String c (p +:+ a) = String c (p +:+ b) -> a = b).
  intros [= H]. auto.
Qed.

Lemma auth_file_is_no_upload_cache prefix_name : AUTH_FILE <> upload_cache prefix_name.
Proof.
  intros H. apply (f_equal String.length) in H.
  unfold upload_cache in H. rewrite string_length_app in H.
  change (19 = String.length prefix_name + 21) in H. lia.
Qed.

Lemma auth_file_is_no_extract_cache prefix_name : AUTH_FILE <> extract_cache prefix_name.
Proof.
  intros H. apply (f_equal String.length) in H.
  unfold extract_cache in H. rewrite string_length_app in H.
  change (19 = String.length prefix_name + 25) in H. lia.
Qed.

Lemma upload_cache_is_no_extract_cache prefix_name :
  upload_cache prefix_name <> extract_cache prefix_name.
Proof.
  intros H. apply string_app_inj in H. discriminate H.
Qed.

(** Each function changes its own file at most, and adds calls only. *)
Lemma auth_extends username api_key password store_info e w :
  extends w (eazyml_auth username api_key password store_info e w).2 [AUTH_FILE].
Proof.
  eapply extends_of_files.
  - destruct (auth_files e w username api_key password store_info) as [H | [_ H]];
      [ left | right ]; exact H.
  - right. eexists. apply auth_calls.
Qed.

Lemma upload_extends token document_path index_name overwrite prefix_name e w :
  extends w (eazyml_upload token document_path index_name overwrite prefix_name e w).2
    [upload_cache prefix_name].
Proof.
  eapply extends_of_files.
  - apply upload_files.
  - destruct (upload_calls e w token document_path index_name overwrite prefix_name)
      as [H | H]; [ left | right; eexists ]; exact H.
Qed.

Lemma extract_extends token api_name query index_name prefix_name e w :
  extends w (eazyml_extract_information token api_name query index_name prefix_name e w).2
    [extract_cache prefix_name].
Proof.
  eapply extends_of_files.
  - apply extract_files.
  - destruct (extract_calls e w token api_name query index_name prefix_name)
      as [H | H]; [ left | right; eexists ]; exact H.
Qed.

Lemma quiet_print (w : world) line :
  (forall path, cache_line path <> line) ->
  quiet w (World (files w) (stdout w ++ [line]) (calls w)).
Proof.
  intros Hline. exists [line]. split; [ reflexivity | ].
  intros path Hin. apply list_elem_of_singleton in Hin. exact (Hline path Hin).
Qed.

Lemma extends_print (w : world) line changed :
  extends w (World (files w) (stdout w ++ [line]) (calls w)) changed.
Proof. split; reflexivity. Qed.

(** The blocks of [flow]. *)

(** The goals a block leaves: where it left the world, and how it ended. *)
Ltac block_goal :=
  match goal with
  | |- extends _ _ _ =>
      first [ apply extends_refl | assumption | apply extends_print ]
  | |- quiet _ _ =>
      first [ apply quiet_refl | assumption | apply quiet_print; discriminate ]
  | |- forall v, _ = Return v -> _ =>
      first [ discriminate | intros ? [= <-]; reflexivity ]
  | |- forall name, _ <> Raise (NameError name) =>
      first [ discriminate
            | intros ? [= ->];
              match goal with
              | H : getitem _ _ = inl _ |- _ =>
                  destruct (getitem_exn _ _ _ H); discriminate
              | H : forall name, _ <> _ |- _ => exact (H _ eq_refl)
              end ]
  end.

Ltac block_done :=
  intros Hrun; injection Hrun as <- <-;
  split; [ | split; [ | split ] ]; block_goal.

Section Blocks.
Variables (e : env) (w : world).

Lemma get_token_block username api_key o w' :
  flow_get_token username api_key e w = (o, w') ->
  extends w w' [AUTH_FILE] /\ quiet w w' /\
  (forall v, o = Return v -> v = VNone) /\
  (forall name, o <> Raise (NameError name)).
Proof.
  unfold flow_get_token.
  destruct (truthy username && truthy api_key).
  - unfold call_fn.
    pose proof (auth_extends username api_key VNone (VBool true) e w) as Hext.
    pose proof (auth_stdout e w username api_key VNone (VBool true)) as Hout.
    pose proof (auth_no_name_error e w username api_key VNone (VBool true)) as Hexn.
    destruct (eazyml_auth username api_key VNone (VBool true) e w) as [[v | x] w1];
      cbv beta iota; block_done.
  - py_unfold. py_simpl.
    destruct (files w !! AUTH_FILE) as [text | ] eqn:Hfile; py_simpl;
      [ | block_done ].
    rewrite ?Hfile. py_simpl.
    destruct (Json.loads text) as [info | ]; py_simpl; [ | block_done ].
    destruct (getitem info "username") as [x | u] eqn:Hu; py_simpl; [ block_done | ].
    destruct (getitem info "api_key") as [x | k] eqn:Hk; py_simpl; [ block_done | ].
    destruct (getitem info "password") as [x | p] eqn:Hp; py_simpl; [ block_done | ].
    pose proof (auth_extends u k p (VBool false) e w) as Hext.
    pose proof (auth_stdout e w u k p (VBool false)) as Hout.
    pose proof (auth_no_name_error e w u k p (VBool false)) as Hexn.
    destruct (eazyml_auth u k p (VBool false) e w) as [[v | x] w1];
      cbv beta iota; block_done.
Qed.

Lemma set_config_block token config_file o w' :
  flow_set_config token config_file e w = (o, w') ->
  extends w w' [] /\ quiet w w' /\
  (forall v, o = Return v -> v = VNone) /\
  (forall name, o <> Raise (NameError name)).
Proof.
  unfold flow_set_config. py_unfold.
  py_cases; intros Hrun; injection Hrun as <- <-;
    (split; [ | split; [ | split ] ]); try block_goal.
  all: try (split; [ reflexivity | apply prefix_app_r; reflexivity ]).
  all: unfold quiet, cache_line; py_simpl; py_printed; intros path Hin; py_no_line Hin.
Qed.

Lemma upload_block token prefix_name document_path index_name overwrite o w' :
  flow_upload_document token prefix_name document_path index_name overwrite e w = (o, w') ->
  extends w w' [upload_cache prefix_name] /\
  (files w !! upload_cache prefix_name = None -> quiet w w') /\
  (forall v, o = Return v -> v = VNone) /\
  (forall q, global_query e = Some q -> forall name, o <> Raise (NameError name)).
Proof.
  unfold flow_upload_document. py_unfold.
  destruct (truthy (of_arg document_path)); py_simpl.
  - destruct (truthy index_name); py_simpl.
    + pose proof (upload_extends token (default "" document_path) index_name
                    overwrite prefix_name e w) as Hext.
      pose proof (upload_stdout e w token (default "" document_path) index_name
                    overwrite prefix_name) as Hout.
      pose proof (upload_no_name_error e w token (default "" document_path)
                    index_name overwrite prefix_name) as Hexn.
      destruct (eazyml_upload token (default "" document_path) index_name overwrite
                  prefix_name e w) as [[index | x] w1]; py_simpl.
      * cbv zeta in Hout. cbn [snd] in Hout. destruct Hout as (new & Hnew & Hquiet).
        destruct (truthy index); py_simpl; intros Hrun; injection Hrun as <- <-;
          (split; [ exact Hext | split; [ | split ] ]);
          try (intros Hnone; exists new; auto);
          try discriminate; try (intros v [= <-]; reflexivity);
          intros; discriminate.
      * cbv zeta in Hout. cbn [snd] in Hout. destruct Hout as (new & Hnew & Hquiet).
        intros Hrun; injection Hrun as <- <-.
        split; [ exact Hext | split; [ | split ] ].
        -- intros Hnone. exists new. auto.
        -- discriminate.
        -- intros q Hq name [= ->]. exact (Hexn q name Hq eq_refl).
    + intros Hrun; injection Hrun as <- <-.
      split; [ apply extends_print | split; [ | split ] ].
      * intros _. apply quiet_print. discriminate.
      * intros v [= <-]. reflexivity.
      * intros; discriminate.
  - intros Hrun; injection Hrun as <- <-.
    split; [ apply extends_refl | split; [ | split ] ].
    + intros _. apply quiet_refl.
    + discriminate.
    + intros; discriminate.
Qed.

Lemma extract_block token prefix_name index_name api_name query o w' :
  flow_extract_information token prefix_name index_name api_name query e w = (o, w') ->
  extends w w' [extract_cache prefix_name] /\
  (files w !! extract_cache prefix_name = None -> quiet w w') /\
  (forall v, o = Return v -> v = VNone) /\
  (forall name, o <> Raise (NameError name)).
Proof.
  unfold flow_extract_information. py_unfold.
  destruct (truthy api_name); py_simpl.
  - destruct (truthy query); py_simpl.
    + destruct (truthy index_name); py_simpl;
        match goal with
        | |- context [eazyml_extract_information _ _ _ _ _ e ?w0] =>
            assert (extends w w0 [] /\ quiet w w0 /\ files w0 = files w)
              as (Hext0 & Hq0 & Hf0)
              by (split; [ first [ apply extends_refl | apply extends_print ]
                         | split; [ first [ apply quiet_refl
                                          | apply quiet_print; discriminate ]
                                  | reflexivity ] ]);
            pose proof (extract_extends token api_name query index_name prefix_name e w0)
              as Hext;
            pose proof (extract_stdout e w0 token api_name query index_name prefix_name)
              as Hout;
            pose proof (extract_no_name_error e w0 token api_name query index_name
                          prefix_name) as Hexn;
            destruct (eazyml_extract_information token api_name query index_name
                        prefix_name e w0) as [[pair | x] w1]
        end; py_simpl;
        cbv zeta in Hout; cbn [snd] in Hout; destruct Hout as (new & Hnew & Hquiet);
        cbn [truthy_tuple negb]; intros Hrun; injection Hrun as <- <-;
        (split; [ apply (extends_weaken _ _ ([] ++ [extract_cache prefix_name]));
                  [ set_solver | eapply extends_trans; eassumption ]
                | split; [ | split ] ]);
        try (intros Hnone; eapply quiet_trans; [ exact Hq0 | ];
             exists new; split; [ exact Hnew | apply Hquiet; exact Hnone ]);
        try discriminate;
        intros name [= ->]; exact (Hexn name eq_refl).
    + intros Hrun; injection Hrun as <- <-.
      split; [ apply extends_print | split; [ | split ] ].
      * intros _. apply quiet_print. discriminate.
      * intros v [= <-]. reflexivity.
      * intros; discriminate.
  - intros Hrun; injection Hrun as <- <-.
    split; [ apply extends_refl | split; [ | split ] ].
    + intros _. apply quiet_refl.
    + discriminate.
    + intros; discriminate.
Qed.

End Blocks.

(** [flow] as a whole. *)
Lemma extends_files (w w' : world) changed path :
  extends w w' changed -> path ∉ changed -> files w' !! path = files w !! path.
Proof. intros [Hf _] Hpath. apply Hf, Hpath. Qed.

Lemma flow_summary username api_key config_file prefix_name document_path
    index_name overwrite api_name query e w :
  let r := flow username api_key config_file prefix_name document_path index_name
             overwrite api_name query e w in
  extends w r.2 [AUTH_FILE; upload_cache prefix_name; extract_cache prefix_name] /\
  (files w !! upload_cache prefix_name = None ->
   files w !! extract_cache prefix_name = None -> quiet w r.2) /\
  (forall v, r.1 = Value v -> v = VNone) /\
  (forall q, global_query e = Some q -> forall name, r.1 <> Exception (NameError name)).
Proof.
  pose proof (auth_file_is_no_upload_cache prefix_name) as Hau.
  pose proof (auth_file_is_no_extract_cache prefix_name) as Hae.
  pose proof (upload_cache_is_no_extract_cache prefix_name) as Hue.
  cbv zeta. unfold flow, def, bind.
  destruct (flow_get_token username api_key e w) as [o1 w1] eqn:H1.
  apply get_token_block in H1 as (E1 & Q1 & R1 & N1).
  destruct o1 as [token | v | x]; cbn [fst snd]; cycle 1.
  { split; [ eapply extends_weaken; [ | exact E1 ]; (set_unfold; intuition congruence) | ].
    split; [ intros _ _; exact Q1 | ].
    split; [ intros v' [= <-]; apply (R1 v eq_refl) | intros; discriminate ]. }
  { split; [ eapply extends_weaken; [ | exact E1 ]; (set_unfold; intuition congruence) | ].
    split; [ intros _ _; exact Q1 | ].
    split; [ discriminate | intros q _ name [= ->]; exact (N1 name eq_refl) ]. }
  destruct (flow_set_config token config_file e w1) as [o2 w2] eqn:H2.
  apply set_config_block in H2 as (E2 & Q2 & R2 & N2).
  pose proof (extends_trans _ _ _ _ _ E1 E2) as E12.
  pose proof (quiet_trans _ _ _ Q1 Q2) as Q12.
  destruct o2 as [[] | v | x]; cbn [fst snd]; cycle 1.
  { split; [ eapply extends_weaken; [ | exact E12 ]; (set_unfold; intuition congruence) | ].
    split; [ intros _ _; exact Q12 | ].
    split; [ intros v' [= <-]; apply (R2 v eq_refl) | intros; discriminate ]. }
  { split; [ eapply extends_weaken; [ | exact E12 ]; (set_unfold; intuition congruence) | ].
    split; [ intros _ _; exact Q12 | ].
    split; [ discriminate | intros q _ name [= ->]; exact (N2 name eq_refl) ]. }
  destruct (flow_upload_document token prefix_name document_path index_name overwrite e w2)
    as [o3 w3] eqn:H3.
  apply upload_block in H3 as (E3 & Q3 & R3 & N3).
  pose proof (extends_trans _ _ _ _ _ E12 E3) as E123.
  assert (files w !! upload_cache prefix_name = None -> quiet w w3) as Q123.
  { intros Hnone. eapply quiet_trans; [ exact Q12 | apply Q3 ].
    rewrite (extends_files _ _ _ _ E12); [ exact Hnone | (set_unfold; intuition congruence) ]. }
  destruct o3 as [[] | v | x]; cbn [fst snd]; cycle 1.
  { split; [ eapply extends_weaken; [ | exact E123 ]; (set_unfold; intuition congruence) | ].
    split; [ intros Hnone _; exact (Q123 Hnone) | ].
    split; [ intros v' [= <-]; apply (R3 v eq_refl) | intros; discriminate ]. }
  { split; [ eapply extends_weaken; [ | exact E123 ]; (set_unfold; intuition congruence) | ].
    split; [ intros Hnone _; exact (Q123 Hnone) | ].
    split; [ discriminate | intros q Hq name [= ->]; exact (N3 q Hq name eq_refl) ]. }
  destruct (flow_extract_information token prefix_name index_name api_name query e w3)
    as [o4 w4] eqn:H4.
  apply extract_block in H4 as (E4 & Q4 & R4 & N4).
  pose proof (extends_trans _ _ _ _ _ E123 E4) as E1234.
  assert (files w !! upload_cache prefix_name = None ->
          files w !! extract_cache prefix_name = None -> quiet w w4) as Q1234.
  { intros Hnone Hnone'. eapply quiet_trans; [ exact (Q123 Hnone) | apply Q4 ].
    rewrite (extends_files _ _ _ _ E123); [ exact Hnone' | (set_unfold; intuition congruence) ]. }
  destruct o4 as [[] | v | x]; cbn [fst snd].
  - split; [ eapply extends_weaken; [ | exact E1234 ]; (set_unfold; intuition congruence) | ].
    split; [ exact Q1234 | ].
    split; [ intros v' [= <-]; reflexivity | intros; discriminate ].
  - split; [ eapply extends_weaken; [ | exact E1234 ]; (set_unfold; intuition congruence) | ].
    split; [ exact Q1234 | ].
    split; [ intros v' [= <-]; apply (R4 v eq_refl) | intros; discriminate ].
  - split; [ eapply extends_weaken; [ | exact E1234 ]; (set_unfold; intuition congruence) | ].
    split; [ exact Q1234 | ].
    split; [ discriminate | intros q _ name [= ->]; exact (N4 name eq_refl) ].
Qed.

(** ** More on the three functions *)

Section FunctionPaths.
Variables (e : env) (w : world).

(** X5. On every path, [eazyml_upload] leaves every file other than its
    cache file as it was, puts nothing in the cache file but the response
    of the service, and asks the service at most once. *)
Theorem upload_touches_only_its_cache token document_path index_name overwrite
    prefix_name :
  let r := eazyml_upload token document_path index_name overwrite prefix_name e w in
  let request := upload_request token document_path index_name overwrite in
  (forall path, path <> upload_cache prefix_name -> files r.2 !! path = files w !! path) /\
  (files r.2 !! upload_cache prefix_name = files w !! upload_cache prefix_name \/
   files r.2 !! upload_cache prefix_name = Some (Json.dumps (ez e (calls w) request))) /\
  (calls r.2 = calls w \/ calls r.2 = calls w ++ [request]).
Proof.
  cbv zeta.
  destruct (upload_files e w token document_path index_name overwrite prefix_name)
    as [Hf | Hf]; rewrite Hf.
  - split; [ reflexivity | split; [ left; reflexivity | apply upload_calls ] ].
  - split; [ intros path Hpath; apply lookup_insert_ne; congruence | ].
    split; [ right; apply lookup_insert_eq | apply upload_calls ].
Qed.

(** X9. On every path, [eazyml_extract_information] leaves every file
    other than its cache file as it was, puts nothing in the cache file but
    the response of the service, and asks the service at most once. *)
Theorem extract_touches_only_its_cache token api_name query index_name prefix_name :
  let r := eazyml_extract_information token api_name query index_name prefix_name e w in
  let request := extract_request token query index_name in
  (forall path, path <> extract_cache prefix_name -> files r.2 !! path = files w !! path) /\
  (files r.2 !! extract_cache prefix_name = files w !! extract_cache prefix_name \/
   files r.2 !! extract_cache prefix_name = Some (Json.dumps (ez e (calls w) request))) /\
  (calls r.2 = calls w \/ calls r.2 = calls w ++ [request]).
Proof.
  cbv zeta.
  destruct (extract_files e w token api_name query index_name prefix_name)
    as [Hf | Hf]; rewrite Hf.
  - split; [ reflexivity | split; [ left; reflexivity | apply extract_calls ] ].
  - split; [ intros path Hpath; apply lookup_insert_ne; congruence | ].
    split; [ right; apply lookup_insert_eq | apply extract_calls ].
Qed.

(** X12. On every path, [eazyml_auth] asks the service exactly once, with
    the password if there is one and with the API key otherwise; it leaves
    every file other than the auth file as it was, and all files if
    [store_info] is not set. *)
Theorem auth_touches_only_its_file username api_key password store_info :
  let r := eazyml_auth username api_key password store_info e w in
  calls r.2 = calls w ++ [auth_request username api_key password] /\
  (forall path, path <> AUTH_FILE -> files r.2 !! path = files w !! path) /\
  (truthy store_info = false -> files r.2 = files w).
Proof.
  cbv zeta. split; [ apply auth_calls | ].
  destruct (auth_files e w username api_key password store_info)
    as [Hf | [Hstore Hf]]; rewrite Hf.
  - split; [ reflexivity | reflexivity ].
  - split; [ intros path Hpath; apply lookup_insert_ne; congruence | ].
    intros Hnot. congruence.
Qed.

(** X6. An accepted extraction with an answer: the pair
    [(resp["answer"], resp)] is returned, the cache file is the response,
    the service was asked once. *)
Theorem extract_accepted_with_answer token api_name query index_name prefix_name
    resp success answer :
  eq_str api_name "extract_information" = true ->
  files w !! extract_cache prefix_name = None ->
  ez e (calls w) (extract_request token query index_name) = resp ->
  getitem resp "success" = inr success ->
  is_True success = true ->
  getitem resp "answer" = inr answer ->
  let r := eazyml_extract_information token api_name query index_name prefix_name e w in
  r.1 = Value (answer, resp) /\
  files r.2 = <[extract_cache prefix_name := Json.dumps resp]> (files w) /\
  calls r.2 = calls w ++ [extract_request token query index_name].
Proof.
  intros Hapi Hfile Hresp Hsuccess Haccepted Hanswer. cbv zeta.
  destruct (extract_accepted token api_name query index_name prefix_name e w
              resp success Hapi Hfile Hresp Hsuccess Haccepted) as (Hr & Hfiles & Hcalls).
  rewrite Hanswer in Hr. auto.
Qed.

(** X7. An accepted extraction without the key [answer]: the response is
    written to the cache file before the lookup raises, and from then on
    every run with that cache file raises [UnboundLocalError] without
    asking the service. *)
Theorem extract_answerless_response_poisons_cache token api_name query index_name
    prefix_name resp success x :
  eq_str api_name "extract_information" = true ->
  files w !! extract_cache prefix_name = None ->
  ez e (calls w) (extract_request token query index_name) = resp ->
  getitem resp "success" = inr success ->
  is_True success = true ->
  getitem resp "answer" = inl x ->
  well_formed resp = true ->
  let r1 := eazyml_extract_information token api_name query index_name prefix_name e w in
  r1.1 = Exception x /\
  forall token' query' index_name' e',
    eazyml_extract_information token' api_name query' index_name' prefix_name e' r1.2 =
    (Exception (UnboundLocalError "answer"),
     World (files r1.2) (stdout r1.2 ++ [cache_line (extract_cache prefix_name)])
       (calls r1.2)).
Proof.
  intros Hapi Hfile Hresp Hsuccess Haccepted Hanswer Hwf r1.
  destruct (extract_accepted token api_name query index_name prefix_name e w
              resp success Hapi Hfile Hresp Hsuccess Haccepted) as (Hr & Hfiles & _).
  fold r1 in Hr, Hfiles. rewrite Hanswer in Hr. split; [ exact Hr | ].
  intros token' query' index_name' e'.
  assert (files r1.2 !! extract_cache prefix_name = Some (Json.dumps resp)) as Hcached
    by (rewrite Hfiles; apply lookup_insert_eq).
  pose proof (loads_dumps resp Hwf) as Hload.
  destruct resp as [ | | | | | d ]; try discriminate Hsuccess.
  cbn in Hanswer. destruct (dict_get "answer" d) eqn:Hd; [ discriminate | ].
  unfold extract_cache, cache_line in *.
  unfold eazyml_extract_information. py_unfold. py_simpl.
  py_step Hapi. py_step Hcached. py_step Hload.
  cbn [contains]. py_step Hd. reflexivity.
Qed.

(** X8. Any [api_name] other than ["extract_information"]: the function
    does nothing and its [return] raises [UnboundLocalError]. *)
Theorem extract_unknown_api_raises token api_name query index_name prefix_name :
  eq_str api_name "extract_information" = false ->
  eazyml_extract_information token api_name query index_name prefix_name e w =
  (Exception (UnboundLocalError "answer"), w).
Proof.
  intros Hapi. unfold eazyml_extract_information. py_unfold. py_simpl.
  py_step Hapi. reflexivity.
Qed.

(** X10. A refused authentication: the message of the service is printed,
    [None] is returned and no file is written, whatever [store_info] is. *)
Theorem auth_refused_returns_none username api_key password store_info
    resp success message :
  ez e (calls w) (auth_request username api_key password) = resp ->
  getitem resp "success" = inr success ->
  is_True success = false ->
  getitem resp "message" = inr message ->
  eazyml_auth username api_key password store_info e w =
  (Value VNone,
   World (files w)
     (stdout w ++ [[Lit "Authentication error: "; Str message]])
     (calls w ++ [auth_request username api_key password])).
Proof.
  intros Hresp Hsuccess Hrefused Hmessage.
  unfold auth_request in *.
  unfold eazyml_auth. py_unfold. py_simpl.
  destruct (is_not_None password); py_simpl;
    py_step Hresp; py_step Hsuccess; py_step Hrefused; py_step Hmessage;
    reflexivity.
Qed.

(** X11. An accepted authentication without the key [token]: the
    credentials are stored if [store_info] is set, and the lookup of the
    token then raises. *)
Theorem auth_accepted_without_token username api_key password store_info
    resp success x :
  ez e (calls w) (auth_request username api_key password) = resp ->
  getitem resp "success" = inr success ->
  is_True success = true ->
  getitem resp "token" = inl x ->
  let r := eazyml_auth username api_key password store_info e w in
  r.1 = Exception x /\
  files r.2 =
    (if truthy store_info
     then <[AUTH_FILE := Json.dumps (credentials username api_key password)]> (files w)
     else files w).
Proof.
  intros Hresp Hsuccess Haccepted Htoken.
  unfold auth_request, credentials in *. cbv zeta.
  unfold eazyml_auth. py_unfold. py_simpl.
  destruct (is_not_None password); py_simpl;
    py_step Hresp; py_step Hsuccess; py_step Haccepted;
    destruct (truthy store_info); py_simpl; py_step Htoken; auto.
Qed.

End FunctionPaths.

(** ** More on the flow *)

Section FlowPaths.
Variables (username api_key config_file : pyval) (prefix_name : string)
  (document_path : option string) (index_name overwrite api_name query : pyval)
  (e : env) (w : world).

(** X13. No credentials given and no auth file: [flow] asks for
    authentication and returns; nothing is written, the service is not
    asked. *)
Theorem flow_without_credentials :
  truthy username && truthy api_key = false ->
  files w !! AUTH_FILE = None ->
  flow username api_key config_file prefix_name document_path index_name overwrite
    api_name query e w =
  (Value VNone,
   World (files w) (stdout w ++ [[Lit "Please authenticate to proceed"]]) (calls w)).
Proof.
  intros Hcred Hfile. unfold flow, flow_get_token. py_unfold. py_simpl.
  py_step Hcred. py_step Hfile. reflexivity.
Qed.

(** X14. No credentials given and an auth file that holds the credentials
    [{username, api_key, password}] as [eazyml_auth] stores them: the
    first block of [flow] authenticates with exactly these, and does not
    store them again. *)
Theorem flow_reuses_stored_credentials u k p :
  truthy username && truthy api_key = false ->
  holds_json (files w) AUTH_FILE (credentials u k p) ->
  let r := flow_get_token username api_key e w in
  r = call_fn (eazyml_auth u k p (VBool false)) e w /\
  calls r.2 = calls w ++ [auth_request u k p] /\
  files r.2 = files w.
Proof.
  intros Hcred [Hfile Hload]. cbv zeta.
  assert (flow_get_token username api_key e w
          = call_fn (eazyml_auth u k p (VBool false)) e w) as ->.
  { unfold flow_get_token. py_step Hcred. unfold bind, os_path_exists, json_load, lift.
    py_simpl. py_step Hfile. py_step Hload.
    unfold credentials. cbn [getitem dict_get String.eqb Ascii.eqb Bool.eqb].
    unfold ret. reflexivity. }
  split; [ reflexivity | ].
  unfold call_fn.
  pose proof (auth_calls e w u k p (VBool false)) as Hcalls.
  destruct (auth_files e w u k p (VBool false)) as [Hfiles | [Hstore _]];
    [ | discriminate Hstore ].
  destruct (eazyml_auth u k p (VBool false) e w) as [[v | x] w1]; auto.
Qed.

(** X15. No credentials given and an auth file with a username and an API
    key and no [password] entry: [flow] raises on the lookup of the
    password, before it asks the service. *)
Theorem flow_auth_file_without_password text info u k x :
  truthy username && truthy api_key = false ->
  files w !! AUTH_FILE = Some text ->
  Json.loads text = Some info ->
  getitem info "username" = inr u ->
  getitem info "api_key" = inr k ->
  getitem info "password" = inl x ->
  flow username api_key config_file prefix_name document_path index_name overwrite
    api_name query e w = (Exception x, w).
Proof.
  intros Hcred Hfile Hload Hu Hk Hp. unfold flow, flow_get_token. py_unfold. py_simpl.
  py_step Hcred. py_step Hfile. py_step Hload. py_step Hu. py_step Hk. py_step Hp.
  reflexivity.
Qed.

(** X16. A configuration file that the service refuses: [flow] prints the
    message and returns; it neither uploads nor extracts. *)
Theorem flow_config_refused token w1 resp success message :
  flow_get_token username api_key e w = (Normal token, w1) ->
  truthy config_file = true ->
  ez e (calls w1) (ez_config token config_file) = resp ->
  getitem resp "success" = inr success ->
  is_True success = false ->
  getitem resp "message" = inr message ->
  flow username api_key config_file prefix_name document_path index_name overwrite
    api_name query e w =
  (Value VNone,
   World (files w1)
     (stdout w1 ++ [ [Lit "Uploading the configuration file ..."];
                     [Lit "Configuration file upload error: "; Str message] ])
     (calls w1 ++ [ez_config token config_file])).
Proof.
  intros Htoken Hconfig Hresp Hsuccess Hrefused Hmessage.
  unfold flow, def. unfold bind at 1. rewrite Htoken.
  unfold flow_set_config. py_unfold. py_simpl.
  py_step Hconfig. py_step Hresp. py_step Hsuccess. py_step Hrefused.
  py_step Hmessage. rewrite <- app_assoc. reflexivity.
Qed.

(** X18. Whatever happens, a value that [flow] returns is [None]: its
    caller cannot tell a completed run from one that stopped early. *)
Theorem flow_returns_none v :
  (flow username api_key config_file prefix_name document_path index_name overwrite
     api_name query e w).1 = Value v ->
  v = VNone.
Proof.
  destruct (flow_summary username api_key config_file prefix_name document_path
              index_name overwrite api_name query e w) as (_ & _ & Hnone & _).
  apply Hnone.
Qed.

(** X19. On every path, [flow] leaves every file other than the auth file
    and the two cache files of the prefix as it was, and the calls made
    before it are still the first ones, in order. *)
Theorem flow_touches_only_three_files :
  let r := flow username api_key config_file prefix_name document_path index_name
             overwrite api_name query e w in
  (forall path,
     path <> AUTH_FILE -> path <> upload_cache prefix_name ->
     path <> extract_cache prefix_name ->
     files r.2 !! path = files w !! path) /\
  calls w `prefix_of` calls r.2.
Proof.
  destruct (flow_summary username api_key config_file prefix_name document_path
              index_name overwrite api_name query e w) as ([Hfiles Hcalls] & _).
  split; [ | exact Hcalls ].
  intros path H1 H2 H3. apply Hfiles. set_unfold. intuition congruence.
Qed.

End FlowPaths.

(** X17. A document to upload, an index name, and a result of
    [eazyml_upload] that is false ([None], [False], an empty value):
    [flow] returns there, in the world the uploader left; no extraction
    follows. *)
Theorem flow_stops_after_falsy_upload username api_key config_file prefix_name
    overwrite e w document_path index_name api_name query token w1 index w2 :
  flow_prelude username api_key config_file e w = (Normal token, w1) ->
  truthy (VStr document_path) = true ->
  truthy index_name = true ->
  eazyml_upload token document_path index_name overwrite prefix_name e w1
  = (Value index, w2) ->
  truthy index = false ->
  flow username api_key config_file prefix_name (Some document_path) index_name
    overwrite api_name query e w = (Value VNone, w2).
Proof.
  intros Hpre Hdoc Hindex_name Hupload Hindex.
  rewrite (flow_after_prelude _ _ _ _ _ _ _ _ _ _ _ _ _ Hpre).
  unfold flow_upload_document. py_unfold. py_simpl.
  cbn [of_arg from_option id]. py_step Hdoc. py_step Hindex_name.
  py_step Hupload. py_step Hindex.
  reflexivity.
Qed.

(** ** The entry block *)

Section EntryBlock.
Import Entry.

Ltac entry_unfold :=
  unfold option_step, read_text; py_unfold.

Ltac entry_cases :=
  repeat match goal with
         | |- context [if ?b then _ else _] => destruct b eqn:?
         | |- context [files ?w !! ?p] => destruct (files w !! p) eqn:?
         end.

(** One turn of the loop prints, and touches nothing else. *)
Lemma option_step_world st curr_arg curr_val e w o w' :
  option_step st curr_arg curr_val e w = (o, w') ->
  files w' = files w /\ calls w' = calls w /\ quiet w w' /\
  (forall name, o <> Raise (NameError name)).
Proof.
  entry_unfold. py_simpl. entry_cases; py_simpl;
    intros Hrun; injection Hrun as <- <-;
    (split; [ reflexivity | split; [ reflexivity | split; [ | discriminate ] ] ]);
    unfold quiet, cache_line; py_simpl; py_printed; intros path Hin; py_no_line Hin.
Qed.

Lemma options_loop_world arguments : forall st e w o w',
  options_loop arguments st e w = (o, w') ->
  files w' = files w /\ calls w' = calls w /\ quiet w w' /\
  (forall name, o <> Raise (NameError name)).
Proof.
  induction arguments as [ | [curr_arg curr_val] rest IH ]; intros st e w o w'.
  - cbn. unfold ret. intros Hrun; injection Hrun as <- <-.
    split; [ reflexivity | split; [ reflexivity | split; [ apply quiet_refl | discriminate ] ] ].
  - cbn [options_loop]. unfold bind at 1.
    destruct (option_step st curr_arg curr_val e w) as [o1 w1] eqn:H1.
    apply option_step_world in H1 as (F1 & C1 & Q1 & N1).
    destruct o1 as [st1 | v | x].
    + intros Hrun. apply IH in Hrun as (F2 & C2 & Q2 & N2).
      split; [ congruence | split; [ congruence | split; [ | exact N2 ] ] ].
      eapply quiet_trans; eassumption.
    + intros Hrun; injection Hrun as <- <-.
      split; [ exact F1 | split; [ exact C1 | split; [ exact Q1 | discriminate ] ] ].
    + intros Hrun; injection Hrun as <- <-.
      split; [ exact F1 | split; [ exact C1 | split; [ exact Q1 | ] ] ].
      intros name [= ->]. exact (N1 name eq_refl).
Qed.

(** One turn of the loop keeps the names as the guards want them. *)
Lemma option_step_guarded st curr_arg curr_val e w st' w' :
  option_step st curr_arg curr_val e w = (Normal st', w') ->
  guarded st = true -> api_name_known st = true ->
  guarded st' = true /\ api_name_known st' = true.
Proof.
  entry_unfold. py_simpl. entry_cases; py_simpl;
    intros Hrun; try discriminate Hrun; injection Hrun as <- <-;
    intros Hguard Hapi;
    repeat match goal with
           | H : _ && _ = true |- _ => apply andb_true_iff in H as [? ?]
           end;
    unfold guarded, api_name_known, no_dashes in *;
    cbn [username api_key config_file overwrite document_path index_name query
         api_name prefix_name] in *;
    repeat match goal with
           | H : _ && _ = true |- _ => apply andb_true_iff in H as [? ?]
           end;
    (split; [ repeat (apply andb_true_iff; split); assumption
            | first [ assumption | reflexivity ] ]).
Qed.

(** An option other than the help one lets the loop go on. *)
Lemma option_step_goes_on st curr_arg curr_val e w :
  is_option curr_arg "-h" "--help" = false ->
  exists st' w', option_step st curr_arg curr_val e w = (Normal st', w').
Proof.
  intros Hhelp. entry_unfold. py_simpl. rewrite Hhelp.
  entry_cases; py_simpl; eauto.
Qed.

Lemma options_loop_help arguments : forall st e w,
  asks_help arguments = true ->
  exists w',
    options_loop arguments st e w =
    (match files w !! "help.txt" with
     | Some _ => Return SystemExit
     | None => Raise FileNotFoundError
     end, w') /\
    (forall text, files w !! "help.txt" = Some text -> [Str (VStr text)] ∈ stdout w').
Proof.
  induction arguments as [ | [curr_arg curr_val] rest IH ]; intros st e w Hhelp;
    [ discriminate | ].
  cbn [asks_help existsb fst] in Hhelp. cbn [options_loop]. unfold bind at 1.
  destruct (is_option curr_arg "-h" "--help") eqn:Hhere.
  - clear IH Hhelp. entry_unfold. py_simpl. rewrite Hhere.
    destruct (files w !! "help.txt") as [text | ] eqn:Hfile; py_simpl;
      rewrite ?Hfile; py_simpl; eexists;
      (split; [ reflexivity | ]); [ | discriminate ].
    intros text' [= <-]. cbn [stdout]. set_solver.
  - destruct (option_step_goes_on st curr_arg curr_val e w Hhere) as (st1 & w1 & H1).
    rewrite H1.
    apply option_step_world in H1 as (F1 & _ & (new & Hnew & _) & _).
    destruct (IH st1 e w1 Hhelp) as (w' & Hrun & Hline).
    rewrite F1 in Hrun, Hline. eauto.
Qed.

End EntryBlock.

(** X20. An option [-h] or [--help] among the parsed ones: the entry
    block prints the help text and ends by [exit()], or raises
    [FileNotFoundError] if there is no [help.txt]; the shell command is not
    run, no file is changed and the service is not asked. *)
Theorem entry_help_exits sh arguments e w :
  Entry.asks_help arguments = true ->
  let r := Entry.main sh arguments e w in
  r.1 = match files w !! "help.txt" with
        | Some _ => Value Entry.SystemExit
        | None => Exception FileNotFoundError
        end /\
  files r.2 = files w /\ calls r.2 = calls w /\
  (forall text, files w !! "help.txt" = Some text -> [Str (VStr text)] ∈ stdout r.2).
Proof.
  intros Hhelp. cbv zeta. unfold Entry.main, def, bind.
  destruct (options_loop_help arguments Entry.initial e w Hhelp) as (w' & Hrun & Hline).
  rewrite Hrun.
  apply options_loop_world in Hrun as (F & C & _ & _).
  destruct (files w !! "help.txt"); cbn [fst snd]; auto.
Qed.

(** X21. What the loop over the options keeps true: when it ends, no
    guarded name (username, api_key, prefix_name, document_path, overwrite,
    index_name, query) holds a value that starts with two dashes, and
    [api_name] is [None] or ["extract_information"]. *)
Theorem entry_options_guarded arguments e w st w' :
  Entry.options_loop arguments Entry.initial e w = (Normal st, w') ->
  Entry.guarded st = true /\ Entry.api_name_known st = true.
Proof.
  assert (forall st0 e0 w0,
            Entry.options_loop arguments st0 e0 w0 = (Normal st, w') ->
            Entry.guarded st0 = true -> Entry.api_name_known st0 = true ->
            Entry.guarded st = true /\ Entry.api_name_known st = true) as Hgen.
  { induction arguments as [ | [curr_arg curr_val] rest IH ]; intros st0 e0 w0.
    - cbn. unfold ret. intros Hrun; injection Hrun as <- <-. auto.
    - cbn [Entry.options_loop]. unfold bind at 1.
      destruct (Entry.option_step st0 curr_arg curr_val e0 w0) as [[st1 | v | x] w1] eqn:H1;
        try discriminate.
      intros Hrun Hguard Hapi.
      destruct (option_step_guarded _ _ _ _ _ _ _ H1 Hguard Hapi) as [Hguard1 Hapi1].
      exact (IH _ _ _ Hrun Hguard1 Hapi1). }
  intros Hrun. exact (Hgen _ _ _ Hrun eq_refl eq_refl).
Qed.

(** X22. A run of the script never ends with [NameError]: the entry block
    binds [query] before it calls [flow], so the line of [eazyml_upload]
    that reads the global [query] finds it. *)
Theorem entry_never_raises_name_error sh arguments e w name :
  (Entry.main sh arguments e w).1 <> Exception (NameError name).
Proof.
  unfold Entry.main, def, bind.
  destruct (Entry.options_loop arguments Entry.initial e w) as [o1 w1] eqn:H1.
  apply options_loop_world in H1 as (_ & _ & _ & N1).
  destruct o1 as [st | v | x]; cbn [fst snd];
    [ | discriminate | intros [= ->]; exact (N1 name eq_refl) ].
  unfold Entry.os_system, Entry.with_global_query, call_fn, return_. cbn [fst snd].
  match goal with
  | |- context [flow ?u ?k ?c ?p ?d ?i ?o ?a ?q ?e' ?w'] =>
      destruct (flow_summary u k c p d i o a q e' w') as (_ & _ & _ & Hexn);
      specialize (Hexn _ eq_refl name);
      destruct (flow u k c p d i o a q e' w') as [[v | x] w2]
  end; cbn [fst snd] in *; congruence.
Qed.

(** X23. A run of the script whose shell command has removed the two cache
    files of the prefix never takes a cache branch: no line "Returning from
    cache" is printed, by the uploader or by the extractor. *)
Theorem entry_cache_never_hit sh arguments e w st w1 :
  Entry.options_loop arguments Entry.initial e w = (Normal st, w1) ->
  let cleaned :=
    sh ("rm -f " +:+ Entry.prefix_name st +:+ "*.json") (files w1) in
  cleaned !! upload_cache (Entry.prefix_name st) = None ->
  cleaned !! extract_cache (Entry.prefix_name st) = None ->
  quiet w (Entry.main sh arguments e w).2.
Proof.
  intros Hloop cleaned Hupload Hextract.
  unfold Entry.main, def, bind. rewrite Hloop.
  apply options_loop_world in Hloop as (_ & _ & Q1 & _).
  unfold Entry.os_system, Entry.with_global_query, call_fn, return_. cbn [fst snd].
  match goal with
  | |- context [flow ?u ?k ?c ?p ?d ?i ?o ?a ?q ?e' ?w'] =>
      destruct (flow_summary u k c p d i o a q e' w') as (_ & Hquiet & _ & _);
      specialize (Hquiet Hupload Hextract);
      destruct (flow u k c p d i o a q e' w') as [[v | x] w2]
  end; cbn [fst snd] in *;
    (eapply quiet_trans; [ exact Q1 | ]);
    destruct Hquiet as (new & Hnew & Hlines); exists new; auto.
Qed.

(** ** Examples of the statements of this part *)

Lemma upload_accepted_in_script_example :
  let r := eazyml_upload (VStr "tok") "doc.pdf" (VStr "idx") (VStr "no") "EazyML"
             (as_script accepting) with_document in
  r.1 = Value (VBool true) /\
  files r.2 =
    <[upload_cache "EazyML" :=
        Json.dumps (VDict [("success", VBool true); ("indexed", VBool true);
                           ("message", VStr "indexed")])]> (files with_document) /\
  calls r.2 =
    calls with_document ++ [upload_request (VStr "tok") "doc.pdf" (VStr "idx") (VStr "no")] /\
  [Lit "    python eazyml_upload_extract_information.py ";
   Lit "--query "; Str (VStr "what is the total?"); Lit " --index_name ";
   Str (VStr "idx"); Lit " --extract_information"] ∈ stdout r.2.
Proof.
  apply (upload_accepted_in_script (VStr "tok") "doc.pdf" (VStr "idx") (VStr "no")
           "EazyML" (as_script accepting) with_document
           (VDict [("success", VBool true); ("indexed", VBool true);
                   ("message", VStr "indexed")])
           (VBool true) (VBool true) (VStr "what is the total?"));
    reflexivity.
Defined.

Lemma upload_accepted_in_module_example :
  let r := eazyml_upload (VStr "tok") "doc.pdf" (VStr "idx") (VStr "no") "EazyML"
             (as_module accepting) with_document in
  r.1 = Exception (NameError "query") /\
  files r.2 =
    <[upload_cache "EazyML" :=
        Json.dumps (VDict [("success", VBool true); ("indexed", VBool true);
                           ("message", VStr "indexed")])]> (files with_document) /\
  calls r.2 =
    calls with_document ++ [upload_request (VStr "tok") "doc.pdf" (VStr "idx") (VStr "no")].
Proof.
  apply (upload_accepted_in_module (VStr "tok") "doc.pdf" (VStr "idx") (VStr "no")
           "EazyML" (as_module accepting) with_document
           (VDict [("success", VBool true); ("indexed", VBool true);
                   ("message", VStr "indexed")])
           (VBool true) (VBool true));
    reflexivity.
Defined.

Lemma upload_refused_with_indexed_example :
  let r := eazyml_upload (VStr "tok") "doc.pdf" (VStr "idx") (VStr "no") "EazyML"
             (as_script refusing_indexed) with_document in
  r.1 = Value (VBool false) /\
  files r.2 = files with_document /\
  [Lit "Upload document error: "; Str (VStr "refused")] ∈ stdout r.2.
Proof.
  apply (upload_refused_with_indexed (VStr "tok") "doc.pdf" (VStr "idx") (VStr "no")
           "EazyML" (as_script refusing_indexed) with_document
           (VDict [("success", VBool false); ("indexed", VBool false);
                   ("message", VStr "refused")])
           (VBool false) (VStr "refused") (VBool false) (VStr "what is the total?"));
    reflexivity.
Defined.


Lemma extract_accepted_with_answer_example :
  let r := eazyml_extract_information (VStr "tok") (VStr "extract_information")
             (VStr "what is the total?") (VStr "idx") "EazyML"
             (as_script accepting) no_files in
  r.1 = Value (VStr "42",
               VDict [("success", VBool true); ("answer", VStr "42");
                      ("message", VStr "done")]) /\
  files r.2 =
    <[extract_cache "EazyML" :=
        Json.dumps (VDict [("success", VBool true); ("answer", VStr "42");
                           ("message", VStr "done")])]> (files no_files) /\
  calls r.2 =
    calls no_files ++
    [extract_request (VStr "tok") (VStr "what is the total?") (VStr "idx")].
Proof.
  apply (extract_accepted_with_answer (as_script accepting) no_files (VStr "tok")
           (VStr "extract_information") (VStr "what is the total?") (VStr "idx")
           "EazyML"
           (VDict [("success", VBool true); ("answer", VStr "42");
                   ("message", VStr "done")])
           (VBool true) (VStr "42"));
    reflexivity.
Defined.

Lemma extract_answerless_response_poisons_cache_example :
  let r1 := eazyml_extract_information (VStr "tok") (VStr "extract_information")
              (VStr "what is the total?") (VStr "idx") "EazyML"
              (as_script accepting_bare) no_files in
  r1.1 = Exception (KeyError "answer") /\
  eazyml_extract_information (VStr "tok") (VStr "extract_information")
    (VStr "what is the total?") (VStr "idx") "EazyML" (as_script accepting) r1.2 =
  (Exception (UnboundLocalError "answer"),
   World (files r1.2) (stdout r1.2 ++ [cache_line (extract_cache "EazyML")])
     (calls r1.2)).
Proof.
  destruct (extract_answerless_response_poisons_cache (as_script accepting_bare)
              no_files (VStr "tok") (VStr "extract_information")
              (VStr "what is the total?") (VStr "idx") "EazyML"
              (VDict [("success", VBool true)]) (VBool true) (KeyError "answer")
              eq_refl eq_refl eq_refl eq_refl eq_refl eq_refl eq_refl)
    as [Hfirst Hnext].
  split; [ exact Hfirst | apply Hnext ].
Defined.

Lemma extract_unknown_api_raises_example :
  eazyml_extract_information (VStr "tok") (VStr "summarize")
    (VStr "what is the total?") (VStr "idx") "EazyML" (as_script accepting) no_files =
  (Exception (UnboundLocalError "answer"), no_files).
Proof.
  apply (extract_unknown_api_raises (as_script accepting) no_files (VStr "tok")
           (VStr "summarize") (VStr "what is the total?") (VStr "idx") "EazyML").
  reflexivity.
Defined.

Lemma auth_refused_returns_none_example :
  eazyml_auth (VStr "user") (VStr "key") VNone (VBool true) (as_script refusing)
    no_files =
  (Value VNone,
   World (files no_files)
     (stdout no_files ++ [[Lit "Authentication error: "; Str (VStr "refused")]])
     (calls no_files ++ [auth_request (VStr "user") (VStr "key") VNone])).
Proof.
  apply (auth_refused_returns_none (as_script refusing) no_files (VStr "user")
           (VStr "key") VNone (VBool true)
           (VDict [("success", VBool false); ("message", VStr "refused")])
           (VBool false) (VStr "refused"));
    reflexivity.
Defined.

Lemma auth_accepted_without_token_example :
  let r := eazyml_auth (VStr "user") (VStr "key") VNone (VBool true)
             (as_script accepting_bare) no_files in
  r.1 = Exception (KeyError "token") /\
  files r.2 =
    <[AUTH_FILE := Json.dumps (credentials (VStr "user") (VStr "key") VNone)]>
      (files no_files).
Proof.
  apply (auth_accepted_without_token (as_script accepting_bare) no_files (VStr "user")
           (VStr "key") VNone (VBool true) (VDict [("success", VBool true)])
           (VBool true) (KeyError "token"));
    reflexivity.
Defined.

Lemma flow_without_credentials_example :
  flow VNone VNone VNone "EazyML" (Some "doc.pdf") (VStr "idx") (VStr "no")
    (VStr "extract_information") (VStr "what is the total?")
    (as_script accepting) with_document =
  (Value VNone,
   World (files with_document)
     (stdout with_document ++ [[Lit "Please authenticate to proceed"]])
     (calls with_document)).
Proof.
  apply (flow_without_credentials VNone VNone VNone "EazyML" (Some "doc.pdf")
           (VStr "idx") (VStr "no") (VStr "extract_information")
           (VStr "what is the total?") (as_script accepting) with_document);
    reflexivity.
Defined.

Lemma flow_reuses_stored_credentials_example :
  let r := flow_get_token VNone VNone (as_script accepting) with_auth_file in
  r = call_fn (eazyml_auth (VStr "user") (VStr "key") VNone (VBool false))
        (as_script accepting) with_auth_file /\
  calls r.2 = calls with_auth_file ++ [auth_request (VStr "user") (VStr "key") VNone] /\
  files r.2 = files with_auth_file.
Proof.
  apply (flow_reuses_stored_credentials VNone VNone (as_script accepting)
           with_auth_file (VStr "user") (VStr "key") VNone);
    [ reflexivity | split; vm_compute; reflexivity ].
Defined.

Lemma flow_auth_file_without_password_example :
  flow VNone VNone VNone "EazyML" None VNone (VStr "no") VNone VNone
    (as_script accepting) with_partial_auth_file =
  (Exception (KeyError "password"), with_partial_auth_file).
Proof.
  apply (flow_auth_file_without_password VNone VNone VNone "EazyML" None VNone
           (VStr "no") VNone VNone (as_script accepting) with_partial_auth_file
           (Json.dumps partial_credentials) partial_credentials
           (VStr "user") (VStr "key") (KeyError "password"));
    vm_compute; reflexivity.
Defined.

Lemma flow_config_refused_example :
  let w1 := (flow_get_token (VStr "user") (VStr "key")
               (as_script refusing_config) with_document).2 in
  flow (VStr "user") (VStr "key") (VStr "config.json") "EazyML" (Some "doc.pdf")
    (VStr "idx") (VStr "no") (VStr "extract_information") (VStr "what is the total?")
    (as_script refusing_config) with_document =
  (Value VNone,
   World (files w1)
     (stdout w1 ++ [ [Lit "Uploading the configuration file ..."];
                     [Lit "Configuration file upload error: "; Str (VStr "refused")] ])
     (calls w1 ++ [ez_config (VStr "tok") (VStr "config.json")])).
Proof.
  intros w1.
  apply (flow_config_refused (VStr "user") (VStr "key") (VStr "config.json") "EazyML"
           (Some "doc.pdf") (VStr "idx") (VStr "no") (VStr "extract_information")
           (VStr "what is the total?") (as_script refusing_config) with_document
           (VStr "tok") w1
           (VDict [("success", VBool false); ("message", VStr "refused")])
           (VBool false) (VStr "refused"));
    vm_compute; reflexivity.
Defined.

Lemma flow_stops_after_falsy_upload_example :
  let w1 := (flow_prelude (VStr "user") (VStr "key") VNone
               (as_script not_indexing) with_document).2 in
  flow (VStr "user") (VStr "key") VNone "EazyML" (Some "doc.pdf") (VStr "idx")
    (VStr "no") (VStr "extract_information") (VStr "what is the total?")
    (as_script not_indexing) with_document =
  (Value VNone,
   (eazyml_upload (VStr "tok") "doc.pdf" (VStr "idx") (VStr "no") "EazyML"
      (as_script not_indexing) w1).2).
Proof.
  intros w1.
  apply (flow_stops_after_falsy_upload (VStr "user") (VStr "key") VNone "EazyML"
           (VStr "no") (as_script not_indexing) with_document "doc.pdf" (VStr "idx")
           (VStr "extract_information") (VStr "what is the total?")
           (VStr "tok") w1 (VBool false));
    vm_compute; reflexivity.
Defined.

Lemma flow_returns_none_example :
  (flow (VStr "user") (VStr "key") VNone "EazyML" (Some "doc.pdf") (VStr "idx")
     (VStr "no") (VStr "extract_information") (VStr "what is the total?")
     (as_script accepting) with_document).1 = Value VNone /\
  VNone = VNone.
Proof.
  assert ((flow (VStr "user") (VStr "key") VNone "EazyML" (Some "doc.pdf") (VStr "idx")
             (VStr "no") (VStr "extract_information") (VStr "what is the total?")
             (as_script accepting) with_document).1 = Value VNone) as Hrun
    by (vm_compute; reflexivity).
  split; [ exact Hrun | ].
  exact (flow_returns_none (VStr "user") (VStr "key") VNone "EazyML" (Some "doc.pdf")
           (VStr "idx") (VStr "no") (VStr "extract_information")
           (VStr "what is the total?") (as_script accepting) with_document VNone Hrun).
Defined.

Lemma entry_help_exits_example :
  let r := Entry.main Entry.sample_shell [("--username", "user"); ("--help", "")]
             (as_module accepting) with_help in
  r.1 = Value Entry.SystemExit /\
  files r.2 = files with_help /\ calls r.2 = calls with_help /\
  [Str (VStr "usage: ...")] ∈ stdout r.2.
Proof.
  destruct (entry_help_exits Entry.sample_shell [("--username", "user"); ("--help", "")]
              (as_module accepting) with_help eq_refl) as (Hr & Hf & Hc & Hline).
  split; [ exact Hr | split; [ exact Hf | split; [ exact Hc | ] ] ].
  apply Hline. reflexivity.
Defined.

Lemma entry_options_guarded_example :
  Entry.guarded sample_settings = true /\ Entry.api_name_known sample_settings = true.
Proof.
  apply (entry_options_guarded sample_arguments (as_module accepting) no_files
           sample_settings
           (Entry.options_loop sample_arguments Entry.initial
              (as_module accepting) no_files).2).
  vm_compute. reflexivity.
Defined.

Lemma entry_cache_never_hit_example :
  quiet with_document_and_cache
    (Entry.main Entry.sample_shell sample_arguments (as_module accepting)
       with_document_and_cache).2.
Proof.
  apply (entry_cache_never_hit Entry.sample_shell sample_arguments
           (as_module accepting) with_document_and_cache sample_settings
           (Entry.options_loop sample_arguments Entry.initial
              (as_module accepting) with_document_and_cache).2);
    vm_compute; reflexivity.
Defined.
